(** * EyeNet network-controller adapters and failover manager

    A shallow embedding of

      - [services/controllers/openDaylightController.ts]
      - [services/controllers/pfSenseController.ts]
      - [services/controllers/mikroTikController.ts]
      - [services/networkControllerManager.ts]

    The TypeScript code is asynchronous but runs on one thread; every
    function below is the sequential run of the corresponding [async]
    method, written in a state-and-exception monad.  A method runs to its
    end before the next one starts: a timer tick that falls between two
    [await]s of a pending call is not modelled.  Vendor responses are
    untyped ([any]) in the source, so they are modelled as JavaScript
    values with the property-access, truthiness and [parseInt] rules the
    adapters rely on.  Logging ([console.log], [console.error]) is left
    out. *)

From Stdlib Require Import List String Ascii ZArith Bool Lia DecimalString.
From Stdlib Require DecimalPos DecimalN DecimalZ.
Import ListNotations.
Open Scope string_scope.
Open Scope Z_scope.
Set Warnings "-register-all".

(** ** JavaScript values *)

Inductive JsError : Type :=
| Error (message : string)
| TypeError (message : string).

Inductive Outcome (A : Type) : Type :=
| Ok (a : A)
| Throw (e : JsError).
Arguments Ok {A} a.
Arguments Throw {A} e.

(** Numbers are the integers plus [NaN]; the counters and ports handled by
    the adapters are integral.  [JPromise v] is a promise that resolves to
    [v]; [JDate] is a [Date] object whose instant is left abstract. *)
Inductive JsVal : Type :=
| JUndefined
| JNull
| JBool (b : bool)
| JNum (z : Z)
| JNaN
| JStr (s : string)
| JArr (items : list JsVal)
| JObj (fields : list (string * JsVal))
| JPromise (resolved : JsVal)
| JDate.

Definition truthy (v : JsVal) : bool :=
  match v with
  | JUndefined | JNull | JNaN => false
  | JBool b => b
  | JNum z => negb (z =? 0)
  | JStr s => negb (String.eqb s "")
  | JArr _ | JObj _ | JPromise _ | JDate => true
  end.

(** [a || b] *)
Definition js_or (a b : JsVal) : JsVal := if truthy a then a else b.

Fixpoint lookup (k : string) (fs : list (string * JsVal)) : JsVal :=
  match fs with
  | [] => JUndefined
  | (k', v) :: fs' => if String.eqb k k' then v else lookup k fs'
  end.

Definition nullish (v : JsVal) : bool :=
  match v with
  | JUndefined | JNull => true
  | _ => false
  end.

(** [v.k] and [v['k']]: reading a property of [undefined] or [null] throws;
    a property an object does not have is [undefined].  None of the names
    the adapters read is a built-in property of a primitive, an array, a
    promise or a date. *)
Definition field (v : JsVal) (k : string) : JsVal :=
  match v with
  | JObj fs => lookup k fs
  | _ => JUndefined
  end.

Definition prop (v : JsVal) (k : string) : Outcome JsVal :=
  if nullish v
  then Throw (TypeError ("Cannot read properties of undefined (reading '" ++ k ++ "')"))
  else Ok (field v k).

(** [v?.k] and [v?.['k']] *)
Definition opt_prop (v : JsVal) (k : string) : JsVal :=
  if nullish v then JUndefined else field v k.

(** [v[i]] for a literal index. *)
Definition index (v : JsVal) (i : nat) : Outcome JsVal :=
  match v with
  | JUndefined | JNull =>
      Throw (TypeError "Cannot read properties of undefined")
  | JArr l => Ok (nth i l JUndefined)
  | JObj fs => Ok (lookup (NilZero.string_of_uint (Nat.to_uint i)) fs)
  | JStr s =>
      Ok (match String.get i s with
          | Some c => JStr (String c "")
          | None => JUndefined
          end)
  | _ => Ok JUndefined
  end.

Definition string_of_Z (z : Z) : string := NilZero.string_of_int (Z.to_int z).

Fixpoint join (sep : string) (l : list string) : string :=
  match l with
  | [] => ""
  | [s] => s
  | s :: l' => s ++ sep ++ join sep l'
  end.

(** [String(v)], as used by template literals and by [parseInt]. *)
Fixpoint toStr (v : JsVal) : string :=
  match v with
  | JUndefined => "undefined"
  | JNull => "null"
  | JBool true => "true"
  | JBool false => "false"
  | JNum z => string_of_Z z
  | JNaN => "NaN"
  | JStr s => s
  | JArr l =>
      join "," (map (fun x => if nullish x then "" else toStr x) l)
  | JObj _ => "[object Object]"
  | JPromise _ => "[object Promise]"
  | JDate => "[object Date]"   (* the text of a date is left abstract *)
  end.

(** ** [parseInt] *)

Definition is_space (c : ascii) : bool :=
  let n := nat_of_ascii c in
  ((9 <=? n) && (n <=? 13))%nat || (n =? 32)%nat.

Fixpoint trim_start (s : string) : string :=
  match s with
  | String c s' => if is_space c then trim_start s' else s
  | EmptyString => s
  end.

Definition digit_val (c : ascii) : option Z :=
  let n := Z.of_nat (nat_of_ascii c) in
  if (48 <=? n) && (n <=? 57) then Some (n - 48)
  else if (97 <=? n) && (n <=? 122) then Some (n - 87)
  else if (65 <=? n) && (n <=? 90) then Some (n - 55)
  else None.

(** The longest prefix of radix-[r] digits; [None] when it is empty. *)
Fixpoint digits (r : Z) (s : string) (acc : option Z) : option Z :=
  match s with
  | EmptyString => acc
  | String c s' =>
      match digit_val c with
      | Some d =>
          if d <? r
          then digits r s' (Some (match acc with Some a => a * r + d | None => d end))
          else acc
      | None => acc
      end
  end.

Definition strip_sign (s : string) : bool * string :=
  match s with
  | String "-" s' => (true, s')
  | String "+" s' => (false, s')
  | _ => (false, s)
  end.

Definition strip_hex (s : string) : Z * string :=
  match s with
  | String "0" (String "x" s') => (16, s')
  | String "0" (String "X" s') => (16, s')
  | _ => (10, s)
  end.

Definition parseInt_string (s : string) : JsVal :=
  let (neg, s1) := strip_sign (trim_start s) in
  let (r, s2) := strip_hex s1 in
  match digits r s2 None with
  | Some n => JNum (if neg then - n else n)
  | None => JNaN
  end.

Definition parseInt (v : JsVal) : JsVal := parseInt_string (toStr v).

(** [a + b]: concatenation as soon as one operand is (or prints as) a
    string, numeric addition otherwise. *)
Definition toNum (v : JsVal) : option Z :=
  match v with
  | JNum z => Some z
  | JNull => Some 0
  | JBool b => Some (if b then 1 else 0)
  | _ => None
  end.

Definition is_stringy (v : JsVal) : bool :=
  match v with
  | JStr _ | JArr _ | JObj _ | JPromise _ | JDate => true
  | _ => false
  end.

Definition js_add (a b : JsVal) : JsVal :=
  if is_stringy a || is_stringy b then JStr (toStr a ++ toStr b)
  else match toNum a, toNum b with
       | Some x, Some y => JNum (x + y)
       | _, _ => JNaN
       end.

(** [s.split(c)] for a one-character separator. *)
Fixpoint split_on (sep : ascii) (s : string) : list string :=
  match s with
  | EmptyString => [""]
  | String c s' =>
      if Ascii.eqb c sep then "" :: split_on sep s'
      else match split_on sep s' with
           | [] => [String c ""]
           | h :: t => String c h :: t
           end
  end.

Definition js_split (v : JsVal) (sep : ascii) : Outcome JsVal :=
  match v with
  | JUndefined | JNull =>
      Throw (TypeError "Cannot read properties of undefined (reading 'split')")
  | JStr s => Ok (JArr (map JStr (split_on sep s)))
  | _ => Throw (TypeError "split is not a function")
  end.

(** ** The state-and-exception monad

    A computation runs on a state, returns a value or throws, and leaves
    a state behind in both cases (a throw does not roll anything back). *)

Definition M (S A : Type) : Type := S -> Outcome A * S.

Definition ret {S A : Type} (a : A) : M S A := fun s => (Ok a, s).

Definition throw {S A : Type} (e : JsError) : M S A := fun s => (Throw e, s).

Definition bind {S A B : Type} (m : M S A) (k : A -> M S B) : M S B :=
  fun s =>
    match m s with
    | (Ok a, s') => k a s'
    | (Throw e, s') => (Throw e, s')
    end.

(** [try { m } catch (e) { h e }] *)
Definition try_catch {S A : Type} (m : M S A) (h : JsError -> M S A) : M S A :=
  fun s =>
    match m s with
    | (Ok a, s') => (Ok a, s')
    | (Throw e, s') => h e s'
    end.

Definition lift {S A : Type} (o : Outcome A) : M S A := fun s => (o, s).

Definition get {S : Type} (v : JsVal) (k : string) : M S JsVal := lift (prop v k).

Declare Scope js_scope.
Delimit Scope js_scope with js.
Notation "x <- m ;; k" := (bind m (fun x => k))
  (at level 61, m at next level, right associativity) : js_scope.
Notation "m ;; k" := (bind m (fun _ => k))
  (at level 61, right associativity) : js_scope.
Open Scope js_scope.

(** [for (const x of l) { f x }] *)
Fixpoint for_of {S A : Type} (l : list A) (f : A -> M S unit) : M S unit :=
  match l with
  | [] => ret tt
  | x :: l' => f x ;; for_of l' f
  end.

(** [l.map(f)] on a list, with a callback that may throw and act. *)
Fixpoint map_m {S A B : Type} (f : A -> M S B) (l : list A) : M S (list B) :=
  match l with
  | [] => ret []
  | x :: l' => y <- f x ;; ys <- map_m f l' ;; ret (y :: ys)
  end.

(** [v.map(f)], [v.forEach(f)], [v.flatMap(f)]: [v] must be an array. *)
Definition as_array {S : Type} (v : JsVal) (method : string) : M S (list JsVal) :=
  match v with
  | JArr l => ret l
  | JUndefined | JNull =>
      throw (TypeError ("Cannot read properties of undefined (reading '" ++ method ++ "')"))
  | _ => throw (TypeError (method ++ " is not a function"))
  end.

(** ** The backends

    Each adapter owns a client to one vendor backend.  A backend answers
    a request with a response or a failure, as a function of the requests
    it has received so far; the three backends are separate machines.
    [trace] lists, oldest first, every request an adapter has sent. *)

Inductive Vendor : Type := OpenDaylight | PfSense | MikroTik.

Definition vendor_eqb (a b : Vendor) : bool :=
  match a, b with
  | OpenDaylight, OpenDaylight | PfSense, PfSense | MikroTik, MikroTik => true
  | _, _ => false
  end.

Inductive Request : Type :=
| HttpGet (url : string)
| HttpPost (url : string) (body : JsVal)
| HttpPut (url : string) (body : JsVal)
| RosConnect
| RosClose
| RosWrite (command : string) (params : list (string * JsVal)).

Definition Backend : Type := list Request -> Request -> Outcome JsVal.

Record Net : Type := mkNet {
  backend : Vendor -> Backend;
  trace : list (Vendor * Request);
  mtClient : bool   (* [MikroTikController.client] has been assigned *)
}.

(** The requests vendor [v] has received. *)
Definition received (v : Vendor) (tr : list (Vendor * Request)) : list Request :=
  map snd (filter (fun p => vendor_eqb (fst p) v) tr).

Definition send (v : Vendor) (r : Request) : M Net JsVal :=
  fun n =>
    (backend n v (received v (trace n)) r,
     mkNet (backend n) (trace n ++ [(v, r)]) (mtClient n)).

(** ** interfaces/networkController.ts *)

Inductive DeviceStatus : Type := online | offline | error.

Record NetworkDevice : Type := mkDevice {
  id : JsVal;
  name : JsVal;
  type : JsVal;
  ipAddress : JsVal;
  status : DeviceStatus;
  lastSeen : JsVal
}.

Record NetworkFlow : Type := mkFlow {
  flowId : JsVal;
  sourceIp : JsVal;
  destinationIp : JsVal;
  sourcePort : JsVal;
  destinationPort : JsVal;
  protocol : JsVal;
  bytesTransferred : JsVal;
  packetsTransferred : JsVal;
  startTime : JsVal;
  endTime : JsVal
}.

Record NetworkStats : Type := mkStats {
  bytesIn : JsVal;
  bytesOut : JsVal;
  packetsIn : JsVal;
  packetsOut : JsVal;
  activeConnections : JsVal;
  timestamp : JsVal
}.

Record Bandwidth : Type := mkBandwidth { bw_min : Z; bw_max : Z }.

Record QoSPolicy : Type := mkPolicy {
  policyId : string;
  policyName : string;
  targetDevice : string;
  bandwidth : Bandwidth;
  priority : Z;
  policyProtocol : option string;
  ports : option (list Z)
}.

Record NetworkController : Type := mkController {
  connect : M Net unit;
  disconnect : M Net unit;
  getDevices : M Net (list NetworkDevice);
  getFlows : M Net (list NetworkFlow);
  getStats : M Net NetworkStats;
  applyQoSPolicy : QoSPolicy -> M Net unit;
  healthCheck : M Net bool
}.

(** [catch (error) { console.error(...); throw error; }] *)
Definition rethrow {S A : Type} (m : M S A) : M S A :=
  try_catch m (fun e => throw e).

(** [o.k || d] for an optional string field [k]. *)
Definition or_default (o : option string) (d : string) : string :=
  match o with
  | Some s => if String.eqb s "" then d else s
  | None => d
  end.

(** ** services/controllers/openDaylightController.ts *)

Module OpenDaylightController.

Definition topologyUrl : string :=
  "/restconf/operational/network-topology:network-topology".

Definition connect : M Net unit :=
  try_catch (_ <- send OpenDaylight (HttpGet topologyUrl) ;; ret tt)
            (fun _ => throw (Error "Connection failed")).

Definition disconnect : M Net unit := ret tt.

Definition toDevice (node : JsVal) : M Net NetworkDevice :=
  nodeId <- get node "node-id" ;;
  ip <- get node "flow-node-inventory:ip-address" ;;
  st <- get node "flow-node-inventory:status" ;;
  ret (mkDevice nodeId nodeId (JStr "OpenFlow")
         (js_or ip (JStr "unknown"))
         (match st with
          | JStr s => if String.eqb s "UP" then online else offline
          | _ => offline
          end)
         JDate).

(** [topo.node?.map(...) || []] *)
Definition topoDevices (topo : JsVal) : M Net (list NetworkDevice) :=
  node <- get topo "node" ;;
  if nullish node then ret []
  else nodes <- as_array node "map" ;; map_m toDevice nodes.

Definition getDevices : M Net (list NetworkDevice) :=
  rethrow (
    response <- send OpenDaylight (HttpGet topologyUrl) ;;
    data <- get response "data" ;;
    nt <- get data "network-topology" ;;
    topology <- get nt "topology" ;;
    topos <- as_array topology "flatMap" ;;
    per_topo <- map_m topoDevices topos ;;
    ret (List.concat per_topo)).

Definition toFlow (flow : JsVal) : M Net NetworkFlow :=
  fid <- get flow "id" ;;
  mtch <- get flow "match" ;;
  src <- get mtch "ipv4-source" ;;
  dst <- get mtch "ipv4-destination" ;;
  sport <- get mtch "tcp-source-port" ;;
  dport <- get mtch "tcp-destination-port" ;;
  proto <- get mtch "ip-protocol" ;;
  st <- get flow "statistics" ;;
  ret (mkFlow fid
         (js_or src (JStr "")) (js_or dst (JStr ""))
         (js_or sport (JNum 0)) (js_or dport (JNum 0))
         (js_or proto (JStr ""))
         (js_or (opt_prop st "byte-count") (JNum 0))
         (js_or (opt_prop st "packet-count") (JNum 0))
         JDate JUndefined).

(** [response.data['flow-node-inventory:table']?.[0]?.flow || []] *)
Definition tableFlows (response : JsVal) : M Net JsVal :=
  data <- get response "data" ;;
  table <- get data "flow-node-inventory:table" ;;
  if nullish table then ret (JArr [])
  else t0 <- lift (index table 0) ;;
       ret (js_or (opt_prop t0 "flow") (JArr [])).

Definition deviceFlows (device : NetworkDevice) : M Net (list NetworkFlow) :=
  response <- send OpenDaylight (HttpGet
    ("/restconf/operational/opendaylight-inventory:nodes/node/"
       ++ toStr (id device) ++ "/flow-node-inventory:table/0")) ;;
  tf <- tableFlows response ;;
  fl <- as_array tf "map" ;;
  map_m toFlow fl.

Definition getFlows : M Net (list NetworkFlow) :=
  rethrow (
    devices <- getDevices ;;
    per_device <- map_m deviceFlows devices ;;
    ret (List.concat per_device)).

Definition addDeviceStats (total : NetworkStats) (device : NetworkDevice)
  : M Net NetworkStats :=
  response <- send OpenDaylight (HttpGet
    ("/restconf/operational/opendaylight-inventory:nodes/node/"
       ++ toStr (id device) ++ "/flow-node-inventory:table/0/flow-statistics")) ;;
  data <- get response "data" ;;
  raw <- get data "flow-node-inventory:flow-statistics" ;;
  let stats := js_or raw (JObj []) in
  ret (mkStats
         (js_add (bytesIn total) (js_or (field stats "bytes-received") (JNum 0)))
         (js_add (bytesOut total) (js_or (field stats "bytes-transmitted") (JNum 0)))
         (js_add (packetsIn total) (js_or (field stats "packets-received") (JNum 0)))
         (js_add (packetsOut total) (js_or (field stats "packets-transmitted") (JNum 0)))
         (js_add (activeConnections total) (js_or (field stats "active-flows") (JNum 0)))
         (timestamp total)).

Fixpoint sumStats (total : NetworkStats) (devices : list NetworkDevice)
  : M Net NetworkStats :=
  match devices with
  | [] => ret total
  | d :: ds => t <- addDeviceStats total d ;; sumStats t ds
  end.

Definition getStats : M Net NetworkStats :=
  rethrow (
    devices <- getDevices ;;
    sumStats (mkStats (JNum 0) (JNum 0) (JNum 0) (JNum 0) (JNum 0) JDate) devices).

Definition qosFlow (policy : QoSPolicy) : JsVal :=
  JObj [("flow-node-inventory:flow", JArr [JObj [
    ("id", JStr (policyId policy));
    ("table_id", JNum 0);
    ("priority", JNum (priority policy));
    ("match", JObj [("ethernet-match", JObj [("ethernet-type", JObj [("type", JNum 2048)])])]);
    ("instructions", JObj [("instruction", JArr [JObj [
       ("order", JNum 0);
       ("apply-actions", JObj [("action", JArr [JObj [
          ("order", JNum 0);
          ("set-queue-action", JObj [("queue-id", JNum (priority policy))])]])])]])])]])].

Definition applyQoSPolicy (policy : QoSPolicy) : M Net unit :=
  rethrow (
    _ <- send OpenDaylight (HttpPut
      ("/restconf/config/opendaylight-inventory:nodes/node/" ++ targetDevice policy
         ++ "/flow-node-inventory:table/0/flow/" ++ policyId policy)
      (qosFlow policy)) ;;
    ret tt).

Definition healthCheck : M Net bool :=
  try_catch (_ <- send OpenDaylight (HttpGet topologyUrl) ;; ret true)
            (fun _ => ret false).

Definition controller : NetworkController :=
  mkController connect disconnect getDevices getFlows getStats
               applyQoSPolicy healthCheck.

End OpenDaylightController.

(** [await Promise.all([m1, m2])]: both requests are issued, in this
    order, before either answer is awaited; the first failure is the
    failure of the whole. *)
Definition promise_all2 {S A B : Type} (m1 : M S A) (m2 : M S B) : M S (A * B) :=
  fun s =>
    let (r1, s1) := m1 s in
    let (r2, s2) := m2 s1 in
    match r1, r2 with
    | Ok a, Ok b => (Ok (a, b), s2)
    | Throw e, _ => (Throw e, s2)
    | Ok _, Throw e => (Throw e, s2)
    end.

(** A loop that updates an accumulator ([forEach] with [+=]). *)
Fixpoint fold_m {S A B : Type} (f : B -> A -> M S B) (l : list A) (b : B) : M S B :=
  match l with
  | [] => ret b
  | x :: l' => b' <- f b x ;; fold_m f l' b'
  end.

(** [stats.c += parseInt(v) || 0] *)
Definition add_counter (c v : JsVal) : JsVal :=
  js_add c (js_or (parseInt v) (JNum 0)).

(** ** services/controllers/pfSenseController.ts *)

Module PfSenseController.

Definition connect : M Net unit :=
  try_catch (_ <- send PfSense (HttpGet "/system/status") ;; ret tt)
            (fun _ => throw (Error "Connection failed")).

Definition disconnect : M Net unit := ret tt.

Definition toDevice (iface : JsVal) : M Net NetworkDevice :=
  ifname <- get iface "if" ;;
  descr <- get iface "descr" ;;
  ipaddr <- get iface "ipaddr" ;;
  enable <- get iface "enable" ;;
  ret (mkDevice ifname (js_or descr ifname) (JStr "pfSense Interface")
         (js_or ipaddr (JStr "unknown"))
         (if truthy enable then online else offline)
         JDate).

Definition getDevices : M Net (list NetworkDevice) :=
  rethrow (
    response <- send PfSense (HttpGet "/interface") ;;
    data <- get response "data" ;;
    list <- get data "data" ;;
    ifaces <- as_array list "map" ;;
    map_m toDevice ifaces).

Definition toFlow (state : JsVal) : M Net NetworkFlow :=
  src <- get state "src" ;;
  sport <- get state "sport" ;;
  dst <- get state "dst" ;;
  dport <- get state "dport" ;;
  proto <- get state "proto" ;;
  bytes <- get state "bytes" ;;
  packets <- get state "packets" ;;
  expires <- get state "expires" ;;
  ret (mkFlow
         (JStr (toStr src ++ ":" ++ toStr sport ++ "-" ++ toStr dst ++ ":" ++ toStr dport))
         src dst (parseInt sport) (parseInt dport) proto
         (js_or (parseInt bytes) (JNum 0))
         (js_or (parseInt packets) (JNum 0))
         JDate
         (if truthy expires then JDate else JUndefined)).

Definition getFlows : M Net (list NetworkFlow) :=
  rethrow (
    response <- send PfSense (HttpGet "/diagnostics/states") ;;
    data <- get response "data" ;;
    list <- get data "data" ;;
    states <- as_array list "map" ;;
    map_m toFlow states).

Definition addInterface (stats : NetworkStats) (iface : JsVal) : M Net NetworkStats :=
  inbytes <- get iface "inbytes" ;;
  outbytes <- get iface "outbytes" ;;
  inpkts <- get iface "inpkts" ;;
  outpkts <- get iface "outpkts" ;;
  ret (mkStats
         (add_counter (bytesIn stats) inbytes)
         (add_counter (bytesOut stats) outbytes)
         (add_counter (packetsIn stats) inpkts)
         (add_counter (packetsOut stats) outpkts)
         (activeConnections stats)
         (timestamp stats)).

(** The body of [getStats] once both responses have arrived. *)
Definition aggregate (interfaceStats states : JsVal) : M Net NetworkStats :=
  sdata <- get states "data" ;;
  total <- get sdata "total" ;;
  let stats := mkStats (JNum 0) (JNum 0) (JNum 0) (JNum 0)
                       (js_or total (JNum 0)) JDate in
  idata <- get interfaceStats "data" ;;
  list <- get idata "data" ;;
  ifaces <- as_array list "forEach" ;;
  fold_m addInterface ifaces stats.

Definition getStats : M Net NetworkStats :=
  rethrow (
    both <- promise_all2 (send PfSense (HttpGet "/interface/stats"))
                         (send PfSense (HttpGet "/diagnostics/states/summary")) ;;
    aggregate (fst both) (snd both)).

Definition qosRule (policy : QoSPolicy) : JsVal :=
  JObj [("interface", JStr (targetDevice policy));
        ("enabled", JBool true);
        ("bandwidth", JObj [("min", JNum (bw_min (bandwidth policy)));
                            ("max", JNum (bw_max (bandwidth policy)))]);
        ("priority", JNum (priority policy));
        ("protocol", JStr (or_default (policyProtocol policy) "any"));
        ("description", JStr (policyName policy));
        ("schedulertype", JStr "PRIQ");
        ("ackqueue", JBool true);
        ("defaultqueue", JBool false)].

Definition applyQoSPolicy (policy : QoSPolicy) : M Net unit :=
  rethrow (
    _ <- send PfSense (HttpPost "/firewall/traffic_shaper/queue" (qosRule policy)) ;;
    ret tt).

Definition healthCheck : M Net bool :=
  try_catch (_ <- send PfSense (HttpGet "/system/status") ;; ret true)
            (fun _ => ret false).

Definition controller : NetworkController :=
  mkController connect disconnect getDevices getFlows getStats
               applyQoSPolicy healthCheck.

End PfSenseController.

(** ** services/controllers/mikroTikController.ts *)

Module MikroTikController.

Definition executeCommand (command : string) (params : list (string * JsVal))
  : M Net JsVal :=
  fun n =>
    if mtClient n then send MikroTik (RosWrite command params) n
    else (Throw (Error "Not connected to MikroTik router"), n).

(** [this.client] is assigned before the session is opened, so it stays
    assigned when opening fails. *)
Definition connect : M Net unit :=
  try_catch
    (fun n =>
       let n' := mkNet (backend n) (trace n) true in
       (_ <- send MikroTik RosConnect ;; ret tt) n')
    (fun _ => throw (Error "Connection failed")).

Definition disconnect : M Net unit :=
  fun n =>
    if mtClient n then (_ <- send MikroTik RosClose ;; ret tt) n
    else (Ok tt, n).

Definition getInterfaceIp (interfaceName : JsVal) : M Net JsVal :=
  try_catch (
    addresses <- executeCommand "/ip/address/print" [("?interface", interfaceName)] ;;
    a0 <- lift (index addresses 0) ;;
    let address := opt_prop a0 "address" in
    if nullish address then ret (JStr "unknown")
    else parts <- lift (js_split address "/") ;;
         p0 <- lift (index parts 0) ;;
         ret (js_or p0 (JStr "unknown")))
    (fun _ => ret (JStr "unknown")).

(** [ipAddress: this.getInterfaceIp(iface.name)]: the call is not awaited,
    so the field holds the promise the [async] method returns.  The
    address request is sent when the call is made. *)
Definition toDevice (iface : JsVal) : M Net NetworkDevice :=
  i <- get iface ".id" ;;
  nm <- get iface "name" ;;
  ty <- get iface "type" ;;
  ip <- getInterfaceIp nm ;;
  running <- get iface "running" ;;
  ret (mkDevice i nm ty (JPromise ip)
         (if truthy running then online else offline)
         JDate).

Definition getDevices : M Net (list NetworkDevice) :=
  rethrow (
    interfaces <- executeCommand "/interface/print" [] ;;
    ifaces <- as_array interfaces "map" ;;
    map_m toDevice ifaces).

Definition toFlow (conn : JsVal) : M Net NetworkFlow :=
  i <- get conn ".id" ;;
  src <- get conn "src-address" ;;
  sparts <- lift (js_split src ":") ;;
  sip <- lift (index sparts 0) ;;
  dst <- get conn "dst-address" ;;
  dparts <- lift (js_split dst ":") ;;
  dip <- lift (index dparts 0) ;;
  sport <- lift (index sparts 1) ;;
  dport <- lift (index dparts 1) ;;
  proto <- get conn "protocol" ;;
  bytes <- get conn "bytes" ;;
  packets <- get conn "packets" ;;
  ret (mkFlow i sip dip (parseInt sport) (parseInt dport) proto
         (js_or (parseInt bytes) (JNum 0))
         (js_or (parseInt packets) (JNum 0))
         JDate JUndefined).

Definition getFlows : M Net (list NetworkFlow) :=
  rethrow (
    connections <- executeCommand "/ip/firewall/connection/print" [] ;;
    conns <- as_array connections "map" ;;
    map_m toFlow conns).

Definition addInterface (stats : NetworkStats) (iface : JsVal) : M Net NetworkStats :=
  rx <- get iface "rx-byte" ;;
  tx <- get iface "tx-byte" ;;
  rxp <- get iface "rx-packet" ;;
  txp <- get iface "tx-packet" ;;
  ret (mkStats
         (add_counter (bytesIn stats) rx)
         (add_counter (bytesOut stats) tx)
         (add_counter (packetsIn stats) rxp)
         (add_counter (packetsOut stats) txp)
         (activeConnections stats)
         (timestamp stats)).

Definition getStats : M Net NetworkStats :=
  rethrow (
    interfaces <- executeCommand "/interface/print"
      [(".proplist", JStr "rx-byte,tx-byte,rx-packet,tx-packet")] ;;
    connections <- executeCommand "/ip/firewall/connection/print"
      [(".proplist", JStr ".count")] ;;
    count <- get connections ".count" ;;
    let stats := mkStats (JNum 0) (JNum 0) (JNum 0) (JNum 0)
                         (js_or (parseInt count) (JNum 0)) JDate in
    ifaces <- as_array interfaces "forEach" ;;
    fold_m addInterface ifaces stats).

Definition queueParams (policy : QoSPolicy) : list (string * JsVal) :=
  [("name", JStr (policyName policy));
   ("target", JStr (targetDevice policy));
   ("max-limit", JStr (string_of_Z (bw_max (bandwidth policy)) ++ "M/"
                       ++ string_of_Z (bw_max (bandwidth policy)) ++ "M"));
   ("limit-at", JStr (string_of_Z (bw_min (bandwidth policy)) ++ "M/"
                      ++ string_of_Z (bw_min (bandwidth policy)) ++ "M"));
   ("priority", JStr (string_of_Z (priority policy)));
   ("comment", JStr ("QoS policy " ++ policyId policy))].

Definition mangleParams (policy : QoSPolicy) (port : Z) : list (string * JsVal) :=
  [("chain", JStr "prerouting");
   ("dst-port", JStr (string_of_Z port));
   ("protocol", JStr (or_default (policyProtocol policy) "tcp"));
   ("action", JStr "mark-connection");
   ("new-connection-mark", JStr (policyName policy ++ "_conn"));
   ("comment", JStr ("QoS mark for " ++ policyName policy))].

Definition applyQoSPolicy (policy : QoSPolicy) : M Net unit :=
  rethrow (
    _ <- executeCommand "/queue/simple/add" (queueParams policy) ;;
    match ports policy with
    | Some (p :: ps) =>
        for_of (p :: ps) (fun port =>
          _ <- executeCommand "/ip/firewall/mangle/add" (mangleParams policy port) ;;
          ret tt)
    | _ => ret tt
    end).

Definition healthCheck : M Net bool :=
  try_catch (_ <- executeCommand "/system/resource/print" [] ;; ret true)
            (fun _ => ret false).

Definition controller : NetworkController :=
  mkController connect disconnect getDevices getFlows getStats
               applyQoSPolicy healthCheck.

End MikroTikController.

Definition adapter (v : Vendor) : NetworkController :=
  match v with
  | OpenDaylight => OpenDaylightController.controller
  | PfSense => PfSenseController.controller
  | MikroTik => MikroTikController.controller
  end.

(** [await Promise.all(l)]: every computation of [l] is started, in
    order; the first failure is the failure of the whole. *)
Fixpoint promise_all {S A : Type} (l : list (M S A)) : M S (list A) :=
  match l with
  | [] => ret []
  | m :: l' =>
      fun s =>
        let (r, s1) := m s in
        let (rs, s2) := promise_all l' s1 in
        match r, rs with
        | Ok a, Ok xs => (Ok (a :: xs), s2)
        | Throw e, _ => (Throw e, s2)
        | Ok _, Throw e => (Throw e, s2)
        end
  end.

(** ** services/networkControllerManager.ts *)

Record HostConfig : Type := mkHostConfig {
  host : string; port : Z; username : string; password : string
}.

Record ApiConfig : Type := mkApiConfig {
  apiHost : string; apiKey : string; apiSecret : string; verifySsl : option bool
}.

Record Config : Type := mkConfig {
  openDaylight : option HostConfig;
  pfSense : option ApiConfig;
  mikroTik : option HostConfig;
  failoverCheckInterval : option Z
}.

(** At most one adapter of each class is ever created, so an adapter
    object is identified by its vendor and [===] on adapters is equality
    of vendors.  [timerRunning] tells whether the interval behind the
    handle [failoverInterval] is still scheduled.  [lastServed] is a ghost
    field: the adapter on which the most recent delegated call was
    invoked. *)
Record Manager : Type := mkManager {
  controllers : list Vendor;
  activeController : option Vendor;
  failoverInterval : option Z;
  timerRunning : bool;
  lastServed : option Vendor
}.

Record System : Type := mkSystem {
  manager : Manager;
  net : Net
}.

Record ControllerStatus : Type := mkStatus {
  statusType : string;
  healthy : bool;
  active : bool
}.

(** [controller.constructor.name] *)
Definition className (v : Vendor) : string :=
  match v with
  | OpenDaylight => "OpenDaylightController"
  | PfSense => "PfSenseController"
  | MikroTik => "MikroTikController"
  end.

Definition withActive (a : option Vendor) (m : Manager) : Manager :=
  mkManager (controllers m) a (failoverInterval m) (timerRunning m) (lastServed m).

Definition withTimer (running : bool) (m : Manager) : Manager :=
  mkManager (controllers m) (activeController m) (failoverInterval m) running
            (lastServed m).

Definition withServed (a : option Vendor) (m : Manager) : Manager :=
  mkManager (controllers m) (activeController m) (failoverInterval m)
            (timerRunning m) a.

Definition same_controller (c : Vendor) (a : option Vendor) : bool :=
  match a with
  | Some v => vendor_eqb c v
  | None => false
  end.

Module NetworkControllerManager.

(** An adapter method run from the manager. *)
Definition call {A : Type} (m : M Net A) : M System A :=
  fun s =>
    let (r, n) := m (net s) in
    (r, mkSystem (manager s) n).

Definition setActive (a : option Vendor) : M System unit :=
  fun s => (Ok tt, mkSystem (withActive a (manager s)) (net s)).

Definition initializeControllers (config : Config) : list Vendor :=
  (match openDaylight config with Some _ => [OpenDaylight] | None => [] end)
  ++ (match pfSense config with Some _ => [PfSense] | None => [] end)
  ++ (match mikroTik config with Some _ => [MikroTik] | None => [] end).

(** [config.failoverCheckInterval || 30000] *)
Definition interval (config : Config) : Z :=
  match failoverCheckInterval config with
  | Some i => if i =? 0 then 30000 else i
  | None => 30000
  end.

(** [this.failoverInterval = setInterval(..., interval)] *)
Definition startFailoverCheck (config : Config) (m : Manager) : Manager :=
  mkManager (controllers m) (activeController m) (Some (interval config)) true
            (lastServed m).

(** The constructor: [initializeControllers()] on the initial field
    values, then [startFailoverCheck()]. *)
Definition constructor (config : Config) : Manager :=
  startFailoverCheck config
    (mkManager (initializeControllers config) None None false None).

(** One iteration of the loop of [selectActiveController]; the result
    tells whether the method returned from inside the loop. *)
Definition tryController (controller : Vendor) : M System bool :=
  try_catch (
    isHealthy <- call (healthCheck (adapter controller)) ;;
    if isHealthy
    then setActive (Some controller) ;; ret true
    else ret false)
    (fun _ => ret false).

Fixpoint selectFrom (cs : list Vendor) : M System unit :=
  match cs with
  | [] => throw (Error "No healthy controllers available")
  | controller :: cs' =>
      returned <- tryController controller ;;
      if returned then ret tt else selectFrom cs'
  end.

Definition selectActiveController : M System unit :=
  fun s => selectFrom (controllers (manager s)) s.

Definition checkAndFailover : M System unit :=
  fun s =>
    match activeController (manager s) with
    | None => selectActiveController s
    | Some a =>
        try_catch (
          isHealthy <- call (healthCheck (adapter a)) ;;
          if isHealthy then ret tt else selectActiveController)
          (fun _ => selectActiveController) s
    end.

(** The loop of [connect]: [errors] collects the failures. *)
Definition connectOne (errors : list JsError) (controller : Vendor)
  : M System (list JsError) :=
  try_catch (call (connect (adapter controller)) ;; ret errors)
            (fun e => ret (errors ++ [e])%list).

Definition message (e : JsError) : string :=
  match e with
  | Error m | TypeError m => m
  end.

Definition connect : M System unit :=
  fun s =>
    (errors <- fold_m connectOne (controllers (manager s)) [] ;;
     selectActiveController ;;
     fun s' =>
       match activeController (manager s') with
       | None =>
           (Throw (Error ("Failed to connect to any controllers: "
                          ++ join ", " (map message errors))), s')
       | Some _ => (Ok tt, s')
       end) s.

(** [if (this.failoverInterval) clearInterval(this.failoverInterval)] *)
Definition clearTimer : M System unit :=
  fun s =>
    match failoverInterval (manager s) with
    | Some _ => (Ok tt, mkSystem (withTimer false (manager s)) (net s))
    | None => (Ok tt, s)
    end.

Definition disconnect : M System unit :=
  fun s =>
    (clearTimer ;;
     _ <- promise_all (map (fun c => call (disconnect (adapter c)))
                           (controllers (manager s))) ;;
     setActive None) s.

Definition controllerStatus (controller : Vendor) : M System ControllerStatus :=
  isHealthy <- call (healthCheck (adapter controller)) ;;
  fun s =>
    (Ok (mkStatus (className controller) isHealthy
                  (same_controller controller (activeController (manager s)))), s).

Definition getAllControllersStatus : M System (list ControllerStatus) :=
  fun s => promise_all (map controllerStatus (controllers (manager s))) s.

Definition ensureActiveController : M System unit :=
  fun s =>
    match activeController (manager s) with
    | None => (Throw (Error "No active controller available"), s)
    | Some _ => (Ok tt, s)
    end.

(** [this.activeController!.op()] *)
Definition onActive {A : Type} (op : NetworkController -> M Net A) : M System A :=
  fun s =>
    match activeController (manager s) with
    | None => (Throw (TypeError "Cannot read properties of null"), s)
    | Some a =>
        call (op (adapter a)) (mkSystem (withServed (Some a) (manager s)) (net s))
    end.

Definition getDevices : M System (list NetworkDevice) :=
  ensureActiveController ;; onActive getDevices.

Definition getFlows : M System (list NetworkFlow) :=
  ensureActiveController ;; onActive getFlows.

Definition getStats : M System NetworkStats :=
  ensureActiveController ;; onActive getStats.

Definition applyQoSPolicy (policy : QoSPolicy) : M System unit :=
  ensureActiveController ;; onActive (fun c => applyQoSPolicy c policy).

Definition healthCheck : M System bool :=
  ensureActiveController ;; onActive healthCheck.

Definition getActiveControllerType (s : System) : string :=
  match activeController (manager s) with
  | Some a => className a
  | None => "None"
  end.

End NetworkControllerManager.

(** ** Executions

    The manager is driven by its callers and by its timer.  A timer tick
    runs [checkAndFailover]; an error it raises rejects the promise of the
    timer callback, which nothing handles.  What the runtime does with
    the unhandled rejection is outside the model: the manager goes on from
    the state the tick left. *)

Inductive Op : Type :=
| OpGetDevices
| OpGetFlows
| OpGetStats
| OpApplyQoSPolicy (policy : QoSPolicy)
| OpHealthCheck.

Inductive Result : Type :=
| Devices (l : list NetworkDevice)
| Flows (l : list NetworkFlow)
| Stats (s : NetworkStats)
| Applied
| Health (b : bool).

(** Operation [op] of an adapter. *)
Definition adapterOp (op : Op) (c : NetworkController) : M Net Result :=
  match op with
  | OpGetDevices => r <- getDevices c ;; ret (Devices r)
  | OpGetFlows => r <- getFlows c ;; ret (Flows r)
  | OpGetStats => r <- getStats c ;; ret (Stats r)
  | OpApplyQoSPolicy policy => _ <- applyQoSPolicy c policy ;; ret Applied
  | OpHealthCheck => r <- healthCheck c ;; ret (Health r)
  end.

(** Operation [op] of the manager. *)
Definition delegated (op : Op) : M System Result :=
  match op with
  | OpGetDevices => r <- NetworkControllerManager.getDevices ;; ret (Devices r)
  | OpGetFlows => r <- NetworkControllerManager.getFlows ;; ret (Flows r)
  | OpGetStats => r <- NetworkControllerManager.getStats ;; ret (Stats r)
  | OpApplyQoSPolicy policy =>
      _ <- NetworkControllerManager.applyQoSPolicy policy ;; ret Applied
  | OpHealthCheck => r <- NetworkControllerManager.healthCheck ;; ret (Health r)
  end.

Inductive Event : Type :=
| Tick
| Connect
| Disconnect
| Call (op : Op)
| Status.

Definition step (e : Event) (s : System) : System :=
  match e with
  | Tick =>
      if timerRunning (manager s)
      then snd (NetworkControllerManager.checkAndFailover s)
      else s
  | Connect => snd (NetworkControllerManager.connect s)
  | Disconnect => snd (NetworkControllerManager.disconnect s)
  | Call op => snd (delegated op s)
  | Status => snd (NetworkControllerManager.getAllControllersStatus s)
  end.

Definition run (events : list Event) (s : System) : System :=
  fold_left (fun s e => step e s) events s.

(** [new NetworkControllerManager(config)] in front of the backends [b]. *)
Definition boot (config : Config) (b : Vendor -> Backend) : System :=
  mkSystem (NetworkControllerManager.constructor config) (mkNet b [] false).

(** Whether the configuration declares vendor [v]. *)
Definition configured (config : Config) (v : Vendor) : bool :=
  match v with
  | OpenDaylight => match openDaylight config with Some _ => true | None => false end
  | PfSense => match pfSense config with Some _ => true | None => false end
  | MikroTik => match mikroTik config with Some _ => true | None => false end
  end.

(** An event after which the active adapter is the one it was before. *)
Definition quiet (e : Event) : bool :=
  match e with
  | Call _ | Status => true
  | Tick | Connect | Disconnect => false
  end.

(** ** Health of a backend

    The request each adapter's [healthCheck] sends, and whether the
    adapter's next [healthCheck] would find its backend reachable. *)

Definition probe (v : Vendor) : Request :=
  match v with
  | OpenDaylight => HttpGet OpenDaylightController.topologyUrl
  | PfSense => HttpGet "/system/status"
  | MikroTik => RosWrite "/system/resource/print" []
  end.

Definition is_ok {A : Type} (o : Outcome A) : bool :=
  match o with
  | Ok _ => true
  | Throw _ => false
  end.

Definition answers (v : Vendor) (r : Request) (n : Net) : bool :=
  is_ok (backend n v (received v (trace n)) r).

Definition probe_ok (v : Vendor) (n : Net) : bool :=
  match v with
  | MikroTik => mtClient n && answers v (probe v) n
  | _ => answers v (probe v) n
  end.

(** The first adapter of [cs] whose backend is reachable. *)
Definition firstHealthy (cs : list Vendor) (n : Net) : option Vendor :=
  find (fun v => probe_ok v n) cs.

(** The network once the loop of [connect] has run. *)
Definition afterConnects (s : System) : Net :=
  net (snd (fold_m NetworkControllerManager.connectOne
                   (controllers (manager s)) [] s)).

Definition no_active_error : JsError := Error "No active controller available".
Definition no_healthy_error : JsError := Error "No healthy controllers available".

(** The number of adapters a status report flags as active. *)
Definition activeCount (s : System) : nat :=
  List.length (filter (fun c => same_controller c (activeController (manager s)))
                 (controllers (manager s))).


(** The network after request [r] has gone to vendor [v], after one
    [healthCheck] of [v], and after one pass of [selectActiveController]
    over [cs]; [selected] is the adapter that pass makes active. *)
Definition sent (v : Vendor) (r : Request) (n : Net) : Net :=
  mkNet (backend n) (trace n ++ [(v, r)]) (mtClient n).

Definition afterProbe (v : Vendor) (n : Net) : Net :=
  match v with
  | MikroTik => if mtClient n then sent v (probe v) n else n
  | _ => sent v (probe v) n
  end.

Fixpoint afterSelect (cs : list Vendor) (n : Net) : Net :=
  match cs with
  | [] => n
  | c :: cs' =>
      if probe_ok c n then afterProbe c n else afterSelect cs' (afterProbe c n)
  end.

Fixpoint selected (cs : list Vendor) (n : Net) : option Vendor :=
  match cs with
  | [] => None
  | c :: cs' => if probe_ok c n then Some c else selected cs' (afterProbe c n)
  end.

Fixpoint afterProbes (cs : list Vendor) (n : Net) : Net :=
  match cs with
  | [] => n
  | c :: cs' => afterProbes cs' (afterProbe c n)
  end.

(** The status report over [cs] when [a] is the active adapter. *)
Fixpoint statusList (a : option Vendor) (cs : list Vendor) (n : Net)
  : list ControllerStatus :=
  match cs with
  | [] => []
  | c :: cs' =>
      mkStatus (className c) (probe_ok c n) (same_controller c a)
        :: statusList a cs' (afterProbe c n)
  end.

(** The network after the further requests [h]; an adapter stays
    unhealthy when its health check fails whatever is sent meanwhile. *)
Definition later (n : Net) (h : list (Vendor * Request)) : Net :=
  mkNet (backend n) (trace n ++ h) (mtClient n).

Definition stays_unhealthy (v : Vendor) (n : Net) : Prop :=
  forall h, probe_ok v (later n h) = false.

(** Concrete backends for the examples. *)
Definition up : Backend := fun _ _ => Ok (JObj []).

Definition down : Backend := fun _ _ => Throw (Error "ECONNREFUSED").

(** Reachable for its first [k] requests, unreachable afterwards. *)
Definition up_for (k : nat) : Backend :=
  fun h _ =>
    if (List.length h <? k)%nat then Ok (JObj []) else Throw (Error "ECONNREFUSED").

(** A topology with one switch, and an SDN controller that serves it to
    its first [k] requests and is unreachable afterwards. *)
Definition odlTopology : JsVal :=
  JObj [("data", JObj [("network-topology", JObj [("topology", JArr [
    JObj [("node", JArr [
      JObj [("node-id", JStr "openflow:1");
            ("flow-node-inventory:ip-address", JStr "192.168.1.1");
            ("flow-node-inventory:status", JStr "UP")]])]])])])].

Definition odl_for (k : nat) : Backend :=
  fun h _ =>
    if (List.length h <? k)%nat then Ok odlTopology else Throw (Error "ECONNREFUSED").

Definition odl : Backend := fun _ _ => Ok odlTopology.

(** The SDN controller answers while the manager connects and fails from
    then on; the firewall and the router never answer. *)
Definition onlyOdlThenNone (v : Vendor) : Backend :=
  match v with
  | OpenDaylight => odl_for 2
  | _ => down
  end.

(** The SDN controller answers three requests (connect, selection, one
    query) and fails from then on; the firewall answers; the router does
    not. *)
Definition odlThenFirewall (v : Vendor) : Backend :=
  match v with
  | OpenDaylight => odl_for 3
  | PfSense => up
  | MikroTik => down
  end.

(** An interface entry of the firewall without usable counters: an
    object (or any value that is not [undefined] or [null]) in which each
    of the four counter fields is absent or does not parse as a number. *)
Definition no_counters (iface : JsVal) : Prop :=
  nullish iface = false
  /\ parseInt (field iface "inbytes") = JNaN
  /\ parseInt (field iface "outbytes") = JNaN
  /\ parseInt (field iface "inpkts") = JNaN
  /\ parseInt (field iface "outpkts") = JNaN.

Definition zeroStats : NetworkStats :=
  mkStats (JNum 0) (JNum 0) (JNum 0) (JNum 0) (JNum 0) JDate.

(** A firewall whose interface statistics carry no counters and whose
    state summary carries no total. *)
Definition firewallNoCounters : Backend :=
  fun _ r =>
    match r with
    | HttpGet "/interface/stats" =>
        Ok (JObj [("data", JObj [("data", JArr [
              JObj [("inbytes", JUndefined); ("outbytes", JUndefined);
                    ("inpkts", JUndefined); ("outpkts", JUndefined)];
              JObj [("inbytes", JStr "n/a"); ("outbytes", JNull)];
              JObj []])])])
    | _ => Ok (JObj [("data", JObj [("total", JUndefined)])])
    end.

(** A router with one interface that has no address entry, as in the
    test "should handle interface without IP address". *)
Definition routerNoAddress : Backend :=
  fun _ r =>
    match r with
    | RosWrite "/interface/print" _ =>
        Ok (JArr [JObj [(".id", JStr "*1"); ("name", JStr "ether1");
                        ("type", JStr "ether")]])
    | _ => Ok (JArr [])
    end.

Definition webPolicy : QoSPolicy :=
  mkPolicy "qos1" "High Priority" "ether1" (mkBandwidth 10 100) 1
           (Some "tcp") (Some [80; 443]).

Definition allConfigured : Config :=
  mkConfig (Some (mkHostConfig "odl.example.com" 8181 "admin" "admin"))
           (Some (mkApiConfig "pfsense.example.com" "test-key" "test-secret" None))
           (Some (mkHostConfig "mikrotik.example.com" 8728 "admin" "admin"))
           (Some 100).

(** ** services/networkMonitoringService.ts

    The collection timer of the monitoring service.  [intervals] is the
    table of the intervals the service has scheduled and not cleared;
    [setInterval] hands out a fresh handle each time.  What the timer
    callback collects and stores (random figures, the database) is left
    out. *)

Module NetworkMonitoringService.

Record Service : Type := mkService {
  monitoringInterval : option nat;
  intervals : list nat;
  nextHandle : nat
}.

(** The exported instance, [new NetworkMonitoringService()]. *)
Definition networkMonitoringService : Service := mkService None [] 0.

Definition startMonitoring (s : Service) : Service :=
  match monitoringInterval s with
  | Some _ => s
  | None =>
      mkService (Some (nextHandle s)) (nextHandle s :: intervals s)
                (S (nextHandle s))
  end.

Definition stopMonitoring (s : Service) : Service :=
  match monitoringInterval s with
  | Some h =>
      mkService None (filter (fun k => negb (Nat.eqb k h)) (intervals s))
                (nextHandle s)
  | None => s
  end.

Inductive Command : Type := Start | Stop.

Definition handle (r : Command) (s : Service) : Service :=
  match r with
  | Start => startMonitoring s
  | Stop => stopMonitoring s
  end.

Definition serve (requests : list Command) (s : Service) : Service :=
  fold_left (fun s r => handle r s) requests s.

End NetworkMonitoringService.

(** ** Vocabulary of the further properties *)

Fixpoint has_char (c : ascii) (s : string) : bool :=
  match s with
  | EmptyString => false
  | String a s' => Ascii.eqb a c || has_char c s'
  end.

(** The integer [parseInt(v) || 0] adds to a counter. *)
Definition counter (v : JsVal) : Z :=
  match parseInt v with
  | JNum z => z
  | _ => 0
  end.

Definition sumZ (l : list Z) : Z := fold_right Z.add 0 l.


(** The commands a policy becomes on the router: the queue, then one
    marking rule per listed port. *)
Definition policyPorts (policy : QoSPolicy) : list Z :=
  match ports policy with
  | Some l => l
  | None => []
  end.

Definition qosCommands (policy : QoSPolicy) : list Request :=
  RosWrite "/queue/simple/add" (MikroTikController.queueParams policy)
  :: map (fun port => RosWrite "/ip/firewall/mangle/add"
                        (MikroTikController.mangleParams policy port))
         (policyPorts policy).

(** A router that accepts every command. *)
Definition accepting (n : Net) : Prop :=
  mtClient n = true
  /\ forall h c p, is_ok (backend n MikroTik h (RosWrite c p)) = true.

Definition not_connected_error : JsError := Error "Not connected to MikroTik router".

(** The request the [connect] of each adapter sends. *)
Definition connectRequest (v : Vendor) : Request :=
  match v with
  | OpenDaylight => HttpGet OpenDaylightController.topologyUrl
  | PfSense => HttpGet "/system/status"
  | MikroTik => RosConnect
  end.

(** A router whose queue creation is refused and which accepts the rest. *)
Definition refusingQueues : Backend :=
  fun _ r =>
    match r with
    | RosWrite "/queue/simple/add" _ => Throw (Error "failure: already have such name")
    | _ => Ok (JArr [])
    end.

(** The sum of the counter [k] over the entries [l]. *)
Definition total (k : string) (l : list JsVal) : Z :=
  sumZ (map (fun entry => counter (field entry k)) l).



(** The device the SDN adapter makes of a node, the nodes of a topology
    entry, and the request for the flow table of a device. *)
Definition odlDevice (node : JsVal) : NetworkDevice :=
  mkDevice (field node "node-id") (field node "node-id") (JStr "OpenFlow")
           (js_or (field node "flow-node-inventory:ip-address") (JStr "unknown"))
           (match field node "flow-node-inventory:status" with
            | JStr s => if String.eqb s "UP" then online else offline
            | _ => offline
            end)
           JDate.

Definition topoNodes (topo : JsVal) : list JsVal :=
  match field topo "node" with
  | JArr l => l
  | _ => []
  end.

Definition well_formed_topo (topo : JsVal) : Prop :=
  nullish topo = false
  /\ (nullish (field topo "node") = true
      \/ exists l, field topo "node" = JArr l
                   /\ Forall (fun node => nullish node = false) l).

Definition flowTableRequest (device : NetworkDevice) : Request :=
  HttpGet ("/restconf/operational/opendaylight-inventory:nodes/node/"
             ++ toStr (id device) ++ "/flow-node-inventory:table/0").

(** The device the firewall adapter makes of an interface entry. *)
Definition pfsDevice (iface : JsVal) : NetworkDevice :=
  mkDevice (field iface "if") (js_or (field iface "descr") (field iface "if"))
           (JStr "pfSense Interface")
           (js_or (field iface "ipaddr") (JStr "unknown"))
           (if truthy (field iface "enable") then online else offline)
           JDate.

(** A topology with a switch that is up, a switch that is down and has
    no address, and an entry without nodes. *)
Definition twoSwitches : JsVal :=
  JObj [("data", JObj [("network-topology", JObj [("topology", JArr [
    JObj [("topology-id", JStr "flow:1");
          ("node", JArr [
      JObj [("node-id", JStr "openflow:1");
            ("flow-node-inventory:ip-address", JStr "192.168.1.1");
            ("flow-node-inventory:status", JStr "UP")];
      JObj [("node-id", JStr "openflow:2");
            ("flow-node-inventory:status", JStr "DOWN")]])];
    JObj [("topology-id", JStr "ovsdb:1")]])])])].

(** An SDN controller that serves this topology and an empty flow table
    for every switch. *)
Definition sdnTwoSwitches : Backend :=
  fun _ r =>
    match r with
    | HttpGet "/restconf/operational/network-topology:network-topology" =>
        Ok twoSwitches
    | _ => Ok (JObj [("data", JObj [])])
    end.

(** A firewall with a described interface and a bare one. *)
Definition firewallInterfaces : Backend :=
  fun _ _ =>
    Ok (JObj [("data", JObj [("data", JArr [
          JObj [("if", JStr "em0"); ("descr", JStr "WAN");
                ("ipaddr", JStr "192.168.1.1"); ("enable", JBool true)];
          JObj [("if", JStr "em1")]])])]).

(** A router that answers everything except the closing of the session. *)
Definition routerCloseFails : Backend :=
  fun _ r =>
    match r with
    | RosClose => Throw (Error "close failed")
    | _ => Ok (JArr [])
    end.

Definition sdnAndStubbornRouter (v : Vendor) : Backend :=
  match v with
  | OpenDaylight => odl
  | PfSense => up
  | MikroTik => routerCloseFails
  end.

Definition noneConfigured : Config := mkConfig None None None None.

(** * Properties *)

(** ** [parseInt] on sample inputs *)

Example parseInt_digits : parseInt (JStr "1000") = JNum 1000.
Proof. reflexivity. Qed.

Example parseInt_prefix : parseInt (JStr "  -42px") = JNum (-42).
Proof. reflexivity. Qed.

Example parseInt_hex : parseInt (JStr "0x1F") = JNum 31.
Proof. reflexivity. Qed.

Example parseInt_undefined : parseInt JUndefined = JNaN.
Proof. reflexivity. Qed.

Example parseInt_text : parseInt (JStr "n/a") = JNaN.
Proof. reflexivity. Qed.

Example parseInt_array : parseInt (JArr [JNum 12; JNull]) = JNum 12.
Proof. reflexivity. Qed.

(** ** Vendors and traces *)

Lemma vendor_eqb_spec (a b : Vendor) : reflect (a = b) (vendor_eqb a b).
Proof. destruct a, b; constructor; congruence. Qed.

Lemma vendor_eqb_refl (a : Vendor) : vendor_eqb a a = true.
Proof. now destruct a. Qed.

Lemma received_app (v : Vendor) (t1 t2 : list (Vendor * Request)) :
  received v (t1 ++ t2) = (received v t1 ++ received v t2)%list.
Proof. unfold received. now rewrite filter_app, map_app. Qed.

Lemma received_other (u v : Vendor) (r : Request) (t : list (Vendor * Request)) :
  u <> v -> received u (t ++ [(v, r)]) = received u t.
Proof.
  intros Hne. rewrite received_app. unfold received at 2. cbn.
  destruct (vendor_eqb_spec v u) as [->|_]; [congruence|].
  cbn. apply app_nil_r.
Qed.

Lemma received_own (v : Vendor) (r : Request) (t : list (Vendor * Request)) :
  received v (t ++ [(v, r)]) = (received v t ++ [r])%list.
Proof.
  rewrite received_app. unfold received at 2. cbn.
  now rewrite vendor_eqb_refl.
Qed.

(** ** Health checks of the adapters *)

Lemma healthCheck_run (v : Vendor) (n : Net) :
  healthCheck (adapter v) n = (Ok (probe_ok v n), afterProbe v n).
Proof.
  destruct v; cbn [adapter healthCheck OpenDaylightController.controller
                   PfSenseController.controller MikroTikController.controller].
  - unfold OpenDaylightController.healthCheck, try_catch, bind, send, ret,
      probe_ok, answers, afterProbe, sent, probe.
    destruct (backend n OpenDaylight _ _); reflexivity.
  - unfold PfSenseController.healthCheck, try_catch, bind, send, ret,
      probe_ok, answers, afterProbe, sent, probe.
    destruct (backend n PfSense _ _); reflexivity.
  - unfold MikroTikController.healthCheck, MikroTikController.executeCommand,
      try_catch, bind, send, ret, probe_ok, answers, afterProbe, sent, probe.
    destruct (mtClient n); [|reflexivity].
    destruct (backend n MikroTik _ _); reflexivity.
Qed.

(** C8: the [healthCheck] of each of the three adapters never raises,
    whatever the probe request meets: it returns [true] when the probe is
    answered and [false] when the probe fails or cannot be sent. *)
Theorem healthCheck_never_raises (v : Vendor) (n : Net) :
  fst (healthCheck (adapter v) n) = Ok (probe_ok v n).
Proof. now rewrite healthCheck_run. Qed.

Lemma probe_ok_answered (v : Vendor) (n : Net) (r : JsVal) :
  backend n v (received v (trace n)) (probe v) = Ok r ->
  (v = MikroTik -> mtClient n = true) ->
  probe_ok v n = true.
Proof.
  intros Hb Hc. unfold probe_ok, answers. rewrite Hb.
  destruct v; cbn; try reflexivity. now rewrite Hc.
Qed.

Lemma probe_ok_failed (v : Vendor) (n : Net) (e : JsError) :
  backend n v (received v (trace n)) (probe v) = Throw e ->
  probe_ok v n = false.
Proof.
  intros Hb. unfold probe_ok, answers. rewrite Hb.
  destruct v; cbn; try reflexivity. apply andb_false_r.
Qed.

Lemma probe_ok_not_connected (n : Net) :
  mtClient n = false -> probe_ok MikroTik n = false.
Proof. intros H. unfold probe_ok. now rewrite H. Qed.

Lemma probe_ok_afterProbe_other (u v : Vendor) (n : Net) :
  u <> v -> probe_ok u (afterProbe v n) = probe_ok u n.
Proof.
  intros Hne.
  assert (Hs : probe_ok u (sent v (probe v) n) = probe_ok u n).
  { unfold probe_ok, answers, sent. cbn [backend trace mtClient].
    now rewrite (received_other u v _ _ Hne). }
  unfold afterProbe. destruct v; try exact Hs.
  destruct (mtClient n); [exact Hs | reflexivity].
Qed.

Lemma afterProbe_backend (v : Vendor) (n : Net) :
  backend (afterProbe v n) = backend n.
Proof. unfold afterProbe, sent. destruct v; try reflexivity; now destruct (mtClient n). Qed.

Lemma afterProbe_mtClient (v : Vendor) (n : Net) :
  mtClient (afterProbe v n) = mtClient n.
Proof.
  unfold afterProbe, sent. destruct v; try reflexivity.
  destruct (mtClient n) eqn:E; cbn; congruence.
Qed.

Lemma find_agree {A : Type} (f g : A -> bool) (l : list A) :
  (forall x, In x l -> f x = g x) -> find f l = find g l.
Proof.
  induction l as [|a l IH]; intros H; [reflexivity|].
  cbn. rewrite (H a (or_introl eq_refl)).
  destruct (g a); [reflexivity|]. apply IH. intros x Hx. apply H. now right.
Qed.

(** On a list without repetition, the pass selects the first adapter
    that was reachable when the pass began. *)
Lemma selected_firstHealthy (cs : list Vendor) :
  NoDup cs -> forall n, selected cs n = firstHealthy cs n.
Proof.
  induction 1 as [|c cs Hnotin Hnd IH]; intros n; [reflexivity|].
  cbn [selected firstHealthy find]. destruct (probe_ok c n); [reflexivity|].
  rewrite IH. unfold firstHealthy. apply find_agree.
  intros u Hu. apply probe_ok_afterProbe_other. congruence.
Qed.

(** ** The manager *)


Lemma call_run {A : Type} (m : M Net A) (s : System) :
  NetworkControllerManager.call m s = (fst (m (net s)), mkSystem (manager s) (snd (m (net s)))).
Proof. unfold NetworkControllerManager.call. now destruct (m (net s)). Qed.

Lemma tryController_run (c : Vendor) (s : System) :
  NetworkControllerManager.tryController c s =
    (Ok (probe_ok c (net s)),
     mkSystem (if probe_ok c (net s)
               then withActive (Some c) (manager s)
               else manager s)
              (afterProbe c (net s))).
Proof.
  unfold NetworkControllerManager.tryController, try_catch, bind. rewrite call_run, healthCheck_run.
  cbn [fst snd]. now destruct (probe_ok c (net s)).
Qed.

Lemma selectFrom_run (cs : list Vendor) (s : System) :
  NetworkControllerManager.selectFrom cs s =
    match selected cs (net s) with
    | Some v => (Ok tt, mkSystem (withActive (Some v) (manager s))
                                 (afterSelect cs (net s)))
    | None => (Throw no_healthy_error,
               mkSystem (manager s) (afterSelect cs (net s)))
    end.
Proof.
  revert s. induction cs as [|c cs IH]; intros s.
  - now destruct s.
  - cbn [NetworkControllerManager.selectFrom selected afterSelect]. unfold bind at 1.
    rewrite tryController_run.
    destruct (probe_ok c (net s)); [reflexivity|].
    now rewrite IH.
Qed.

Lemma selectActiveController_run (s : System) :
  NetworkControllerManager.selectActiveController s =
    match selected (controllers (manager s)) (net s) with
    | Some v => (Ok tt, mkSystem (withActive (Some v) (manager s))
                                 (afterSelect (controllers (manager s)) (net s)))
    | None => (Throw no_healthy_error,
               mkSystem (manager s) (afterSelect (controllers (manager s)) (net s)))
    end.
Proof. apply selectFrom_run. Qed.

Lemma selected_In (cs : list Vendor) (n : Net) (v : Vendor) :
  selected cs n = Some v -> In v cs.
Proof.
  revert n. induction cs as [|c cs IH]; intros n; cbn; [discriminate|].
  destruct (probe_ok c n).
  - intros [= ->]. now left.
  - intros H. right. eauto.
Qed.

Lemma initializeControllers_NoDup (config : Config) :
  NoDup (NetworkControllerManager.initializeControllers config).
Proof.
  unfold NetworkControllerManager.initializeControllers.
  destruct (openDaylight config), (pfSense config), (mikroTik config); cbn;
    repeat constructor; cbn; intuition discriminate.
Qed.

(** The configuration order is SDN controller, firewall, router. *)
Lemma initializeControllers_order (config : Config) :
  NetworkControllerManager.initializeControllers config =
    filter (configured config) [OpenDaylight; PfSense; MikroTik].
Proof.
  unfold NetworkControllerManager.initializeControllers, configured.
  now destruct (openDaylight config), (pfSense config), (mikroTik config).
Qed.

Lemma connectOne_run (errors : list JsError) (c : Vendor) (s : System) :
  NetworkControllerManager.connectOne errors c s =
    (Ok (match fst (connect (adapter c) (net s)) with
         | Ok _ => errors
         | Throw e => (errors ++ [e])%list
         end),
     mkSystem (manager s) (snd (connect (adapter c) (net s)))).
Proof.
  unfold NetworkControllerManager.connectOne, try_catch, bind. rewrite call_run. cbn [fst snd].
  now destruct (fst (connect (adapter c) (net s))).
Qed.

Lemma connectLoop_run (cs : list Vendor) (errors : list JsError) (s : System) :
  exists es,
    fold_m NetworkControllerManager.connectOne cs errors s =
      (Ok es, mkSystem (manager s)
                (net (snd (fold_m NetworkControllerManager.connectOne cs errors s)))).
Proof.
  revert errors s. induction cs as [|c cs IH]; intros errors s.
  - exists errors. now destruct s.
  - cbn [fold_m]. unfold bind. rewrite connectOne_run.
    match goal with
    | |- context [fold_m NetworkControllerManager.connectOne cs ?e ?t] =>
        destruct (IH e t) as [es Hes]
    end.
    exists es. rewrite Hes. reflexivity.
Qed.

(** What [connect] comes to: the loop over the adapters, then one
    selection pass.  The branch that builds the aggregated message is
    never taken, since [NetworkControllerManager.selectActiveController] either makes an adapter
    active or throws. *)
Lemma connect_run (s : System) :
  NetworkControllerManager.connect s =
    match selected (controllers (manager s)) (afterConnects s) with
    | Some v =>
        (Ok tt, mkSystem (withActive (Some v) (manager s))
                         (afterSelect (controllers (manager s)) (afterConnects s)))
    | None =>
        (Throw no_healthy_error,
         mkSystem (manager s)
                  (afterSelect (controllers (manager s)) (afterConnects s)))
    end.
Proof.
  unfold NetworkControllerManager.connect, afterConnects.
  destruct (connectLoop_run (controllers (manager s)) [] s) as [es Hes].
  unfold bind at 1. rewrite Hes. cbn [snd net].
  unfold bind. rewrite selectActiveController_run. cbn [manager net].
  destruct (selected _ _); reflexivity.
Qed.

Lemma filter_same_NoDup (cs : list Vendor) (v : Vendor) :
  NoDup cs -> In v cs ->
  List.length (filter (fun c => same_controller c (Some v)) cs) = 1%nat.
Proof.
  induction 1 as [|c cs Hnotin Hnd IH]; intros Hin; [contradiction|].
  cbn [filter same_controller]. destruct (vendor_eqb_spec c v) as [->|Hne].
  - cbn. f_equal. clear IH Hin Hnd.
    induction cs as [|d cs IH]; [reflexivity|].
    cbn. destruct (vendor_eqb_spec d v) as [->|_].
    + exfalso. apply Hnotin. now left.
    + apply IH. intros H. apply Hnotin. now right.
  - destruct Hin as [->|Hin]; [congruence|]. now apply IH.
Qed.

Lemma find_split {A : Type} (f : A -> bool) (l : list A) (v : A) :
  find f l = Some v ->
  exists pre post, l = (pre ++ v :: post)%list
                   /\ (forall u, In u pre -> f u = false) /\ f v = true.
Proof.
  induction l as [|a l IH]; cbn; [discriminate|].
  destruct (f a) eqn:Ha.
  - intros [= ->]. exists [], l. cbn. intuition.
  - intros H. destruct (IH H) as (pre & post & -> & Hpre & Hv).
    exists (a :: pre), post. cbn. intuition (subst; auto).
Qed.

Lemma find_some_of_exists {A : Type} (f : A -> bool) (l : list A) :
  (exists u, In u l /\ f u = true) -> exists v, find f l = Some v.
Proof.
  intros (u & Hin & Hu). destruct (find f l) eqn:E; [eauto|].
  now rewrite (find_none _ _ E u Hin) in Hu.
Qed.

(** C1: when at least one configured adapter is healthy at connect
    time, [connect] succeeds and leaves exactly one adapter active: the
    first one, in the order SDN controller, firewall, router of the
    configured adapters, whose health check returned true. *)
Theorem connect_selects_first_healthy (config : Config) (s : System) :
  controllers (manager s) = NetworkControllerManager.initializeControllers config ->
  (exists u, In u (NetworkControllerManager.initializeControllers config)
             /\ probe_ok u (afterConnects s) = true) ->
  exists v pre post,
    filter (configured config) [OpenDaylight; PfSense; MikroTik]
      = (pre ++ v :: post)%list
    /\ (forall u, In u pre -> probe_ok u (afterConnects s) = false)
    /\ probe_ok v (afterConnects s) = true
    /\ fst (NetworkControllerManager.connect s) = Ok tt
    /\ activeController (manager (snd (NetworkControllerManager.connect s))) = Some v
    /\ activeCount (snd (NetworkControllerManager.connect s)) = 1%nat.
Proof.
  intros Hcs Hex.
  destruct (find_some_of_exists _ _ Hex) as [v Hv].
  destruct (find_split _ _ _ Hv) as (pre & post & Hsplit & Hpre & Hok).
  exists v, pre, post. rewrite <- initializeControllers_order.
  repeat split; try assumption.
  all: rewrite connect_run, Hcs,
         (selected_firstHealthy _ (initializeControllers_NoDup config));
       unfold firstHealthy; rewrite Hv; cbn [fst snd manager]; try reflexivity.
  unfold activeCount. cbn [manager withActive controllers activeController].
  rewrite Hcs. apply filter_same_NoDup.
  - apply initializeControllers_NoDup.
  - rewrite Hsplit. apply in_elt.
Qed.

(** C1, on an instance: the SDN controller is unreachable, the firewall
    and the router answer; [connect] makes the firewall adapter active. *)
Lemma connect_selects_first_healthy_witness :
  exists v pre post,
    filter (configured allConfigured) [OpenDaylight; PfSense; MikroTik]
      = (pre ++ v :: post)%list
    /\ (forall u, In u pre ->
          probe_ok u (afterConnects (boot allConfigured
            (fun w => match w with OpenDaylight => down | _ => up end))) = false)
    /\ probe_ok v (afterConnects (boot allConfigured
            (fun w => match w with OpenDaylight => down | _ => up end))) = true
    /\ fst (NetworkControllerManager.connect (boot allConfigured
            (fun w => match w with OpenDaylight => down | _ => up end))) = Ok tt
    /\ activeController (manager (snd (NetworkControllerManager.connect
          (boot allConfigured
            (fun w => match w with OpenDaylight => down | _ => up end))))) = Some v
    /\ activeCount (snd (NetworkControllerManager.connect (boot allConfigured
            (fun w => match w with OpenDaylight => down | _ => up end)))) = 1%nat.
Proof.
  apply (connect_selects_first_healthy allConfigured).
  - reflexivity.
  - exists PfSense. split; [right; left; reflexivity | reflexivity].
Defined.

Example connect_firewall_active :
  activeController (manager (snd (NetworkControllerManager.connect
    (boot allConfigured (fun w => match w with OpenDaylight => down | _ => up end)))))
  = Some PfSense.
Proof. reflexivity. Qed.

Lemma connect_outcomes (s : System) :
  fst (NetworkControllerManager.connect s) = Ok tt
  \/ fst (NetworkControllerManager.connect s) = Throw no_healthy_error.
Proof. rewrite connect_run. destruct (selected _ _); [now left | now right]. Qed.

(** C3: with every configured adapter failing at connect time, the loop
    of [connect] does collect the three connection failures, but the
    error [connect] raises is the one of the selection pass; the message
    that aggregates the failures is not produced. *)
Theorem connect_all_down_not_aggregated :
  fst (fold_m NetworkControllerManager.connectOne
         (controllers (manager (boot allConfigured (fun _ => down)))) []
         (boot allConfigured (fun _ => down)))
    = Ok [Error "Connection failed"; Error "Connection failed"; Error "Connection failed"]
  /\ fst (NetworkControllerManager.connect (boot allConfigured (fun _ => down)))
    = Throw (Error "No healthy controllers available")
  /\ fst (NetworkControllerManager.connect (boot allConfigured (fun _ => down)))
    <> Throw (Error ("Failed to connect to any controllers: "
                     ++ "Connection failed, Connection failed, Connection failed")).
Proof. repeat split; try reflexivity. cbv. discriminate. Qed.

(** ** Delegation *)

Lemma guarded_run {A : Type} (op : NetworkController -> M Net A) (s : System) :
  (NetworkControllerManager.ensureActiveController ;;
   NetworkControllerManager.onActive op) s =
    match activeController (manager s) with
    | None => (Throw no_active_error, s)
    | Some a =>
        (fst (op (adapter a) (net s)),
         mkSystem (withServed (Some a) (manager s)) (snd (op (adapter a) (net s))))
    end.
Proof.
  unfold bind, NetworkControllerManager.ensureActiveController,
    NetworkControllerManager.onActive.
  destruct (activeController (manager s)) as [a|] eqn:Ha; [|reflexivity].
  rewrite Ha. now rewrite call_run.
Qed.

Lemma delegated_run (op : Op) (s : System) :
  delegated op s =
    match activeController (manager s) with
    | None => (Throw no_active_error, s)
    | Some a =>
        (fst (adapterOp op (adapter a) (net s)),
         mkSystem (withServed (Some a) (manager s))
                  (snd (adapterOp op (adapter a) (net s))))
    end.
Proof.
  destruct op; unfold delegated, NetworkControllerManager.getDevices,
    NetworkControllerManager.getFlows, NetworkControllerManager.getStats,
    NetworkControllerManager.applyQoSPolicy, NetworkControllerManager.healthCheck;
    unfold bind at 1; rewrite guarded_run;
    (destruct (activeController (manager s)) as [a|]; [|reflexivity]);
    unfold adapterOp, bind.
  - now destruct (getDevices (adapter a) (net s)) as [[?|?] ?].
  - now destruct (getFlows (adapter a) (net s)) as [[?|?] ?].
  - now destruct (getStats (adapter a) (net s)) as [[?|?] ?].
  - now destruct (applyQoSPolicy (adapter a) policy (net s)) as [[?|?] ?].
  - now destruct (healthCheck (adapter a) (net s)) as [[?|?] ?].
Qed.

(** C5: when a delegated call fails on the active adapter, the caller
    gets that very error, the adapter method has been run once (the
    network is the one a single run of it leaves), and the manager keeps
    its adapters, its active adapter and its timer. *)
Theorem delegated_failure_propagates
  (op : Op) (s : System) (a : Vendor) (e : JsError) :
  activeController (manager s) = Some a ->
  fst (adapterOp op (adapter a) (net s)) = Throw e ->
  fst (delegated op s) = Throw e
  /\ net (snd (delegated op s)) = snd (adapterOp op (adapter a) (net s))
  /\ activeController (manager (snd (delegated op s))) = Some a
  /\ controllers (manager (snd (delegated op s))) = controllers (manager s)
  /\ failoverInterval (manager (snd (delegated op s))) = failoverInterval (manager s)
  /\ timerRunning (manager (snd (delegated op s))) = timerRunning (manager s).
Proof.
  intros Ha He. rewrite delegated_run, Ha.
  cbn [fst snd net manager withServed activeController controllers
       failoverInterval timerRunning].
  repeat split; assumption.
Qed.

(** C5, on an instance: the SDN controller answered while connecting and
    is unreachable afterwards; [getDevices] fails with the transport
    error and the SDN adapter is still the active one. *)
Lemma delegated_failure_propagates_witness :
  fst (delegated OpGetDevices
         (run [Connect] (boot allConfigured
            (fun w => match w with OpenDaylight => up_for 2 | _ => down end))))
    = Throw (Error "ECONNREFUSED")
  /\ activeController (manager (snd (delegated OpGetDevices
         (run [Connect] (boot allConfigured
            (fun w => match w with OpenDaylight => up_for 2 | _ => down end))))))
    = Some OpenDaylight.
Proof.
  destruct (delegated_failure_propagates OpGetDevices
              (run [Connect] (boot allConfigured
                 (fun w => match w with OpenDaylight => up_for 2 | _ => down end)))
              OpenDaylight (Error "ECONNREFUSED") eq_refl eq_refl)
    as (H1 & _ & H2 & _).
  exact (conj H1 H2).
Defined.

(** ** Ticks of the failover timer *)

Lemma checkAndFailover_run (s : System) :
  NetworkControllerManager.checkAndFailover s =
    match activeController (manager s) with
    | None => NetworkControllerManager.selectActiveController s
    | Some a =>
        let s1 := mkSystem (manager s) (afterProbe a (net s)) in
        if probe_ok a (net s) then (Ok tt, s1)
        else match selected (controllers (manager s)) (net s1) with
             | Some v =>
                 (Ok tt, mkSystem (withActive (Some v) (manager s))
                                  (afterSelect (controllers (manager s)) (net s1)))
             | None =>
                 NetworkControllerManager.selectActiveController
                   (mkSystem (manager s)
                             (afterSelect (controllers (manager s)) (net s1)))
             end
    end.
Proof.
  unfold NetworkControllerManager.checkAndFailover.
  destruct (activeController (manager s)) as [a|]; [|reflexivity].
  unfold try_catch, bind. rewrite call_run, healthCheck_run. cbn [fst snd].
  destruct (probe_ok a (net s)); [reflexivity|].
  rewrite selectActiveController_run. cbn [manager net].
  destruct (selected _ _); reflexivity.
Qed.

Lemma later_nil (n : Net) : later n [] = n.
Proof. destruct n. unfold later. cbn. now rewrite app_nil_r. Qed.

Lemma later_later (n : Net) (h1 h2 : list (Vendor * Request)) :
  later (later n h1) h2 = later n (h1 ++ h2).
Proof. unfold later. cbn. now rewrite app_assoc. Qed.

Lemma afterProbe_later (v : Vendor) (n : Net) :
  exists h, afterProbe v n = later n h.
Proof.
  assert (Hs : exists h, sent v (probe v) n = later n h)
    by (now exists [(v, probe v)]).
  unfold afterProbe. destruct v; try exact Hs.
  destruct (mtClient n); [exact Hs|]. exists []. now rewrite later_nil.
Qed.

Lemma stays_unhealthy_later (v : Vendor) (n : Net) (h : list (Vendor * Request)) :
  stays_unhealthy v n -> stays_unhealthy v (later n h).
Proof. intros H h'. rewrite later_later. apply H. Qed.

Lemma stays_unhealthy_now (v : Vendor) (n : Net) :
  stays_unhealthy v n -> probe_ok v n = false.
Proof. intros H. specialize (H []). now rewrite later_nil in H. Qed.

Lemma selected_none (cs : list Vendor) (n : Net) :
  (forall u, In u cs -> stays_unhealthy u n) ->
  selected cs n = None /\ exists h, afterSelect cs n = later n h.
Proof.
  revert n. induction cs as [|c cs IH]; intros n H.
  - split; [reflexivity|]. exists []. now rewrite later_nil.
  - cbn [selected afterSelect].
    rewrite (stays_unhealthy_now c n (H c (or_introl eq_refl))).
    destruct (afterProbe_later c n) as [h1 Eh1]. rewrite Eh1.
    destruct (IH (later n h1)) as [Hsel [h2 Eh2]].
    + intros u Hu. apply stays_unhealthy_later. apply H. now right.
    + split; [exact Hsel|]. exists (h1 ++ h2)%list.
      now rewrite Eh2, later_later.
Qed.

(** With every configured adapter unhealthy the tick fails and does not
    touch the manager. *)
Lemma checkAndFailover_all_unhealthy (s : System) :
  (forall a, activeController (manager s) = Some a -> In a (controllers (manager s))) ->
  (forall u, In u (controllers (manager s)) -> stays_unhealthy u (net s)) ->
  exists h,
    NetworkControllerManager.checkAndFailover s =
      (Throw no_healthy_error, mkSystem (manager s) (later (net s) h)).
Proof.
  intros Hact Hall. rewrite checkAndFailover_run.
  destruct (activeController (manager s)) as [a|].
  - cbn zeta. cbn [net].
    rewrite (stays_unhealthy_now a (net s) (Hall a (Hact a eq_refl))).
    destruct (afterProbe_later a (net s)) as [h1 Eh1]. rewrite Eh1.
    assert (H1 : forall u, In u (controllers (manager s)) ->
                           stays_unhealthy u (later (net s) h1))
      by (intros u Hu; apply stays_unhealthy_later; auto).
    destruct (selected_none _ _ H1) as [Hsel [h2 Eh2]]. rewrite Hsel, Eh2.
    rewrite later_later, selectActiveController_run. cbn [manager net].
    assert (H2 : forall u, In u (controllers (manager s)) ->
                           stays_unhealthy u (later (net s) (h1 ++ h2)))
      by (intros u Hu; apply stays_unhealthy_later; auto).
    destruct (selected_none _ _ H2) as [Hsel' [h3 Eh3]]. rewrite Hsel', Eh3.
    rewrite later_later. eauto.
  - rewrite selectActiveController_run.
    destruct (selected_none _ _ Hall) as [Hsel [h Eh]]. rewrite Hsel, Eh. eauto.
Qed.

(** ** Status introspection *)

Lemma controllerStatus_run (c : Vendor) (s : System) :
  NetworkControllerManager.controllerStatus c s =
    (Ok (mkStatus (className c) (probe_ok c (net s))
                  (same_controller c (activeController (manager s)))),
     mkSystem (manager s) (afterProbe c (net s))).
Proof.
  unfold NetworkControllerManager.controllerStatus, bind.
  now rewrite call_run, healthCheck_run.
Qed.

Lemma promise_all_status (cs : list Vendor) (s : System) :
  promise_all (map NetworkControllerManager.controllerStatus cs) s =
    (Ok (statusList (activeController (manager s)) cs (net s)),
     mkSystem (manager s) (afterProbes cs (net s))).
Proof.
  revert s. induction cs as [|c cs IH]; intros s.
  - now destruct s.
  - cbn [map promise_all statusList afterProbes].
    rewrite controllerStatus_run, IH. reflexivity.
Qed.

Lemma getAllControllersStatus_run (s : System) :
  NetworkControllerManager.getAllControllersStatus s =
    (Ok (statusList (activeController (manager s)) (controllers (manager s)) (net s)),
     mkSystem (manager s) (afterProbes (controllers (manager s)) (net s))).
Proof. apply promise_all_status. Qed.

Lemma statusList_active (a : option Vendor) (cs : list Vendor) (n : Net) :
  map active (statusList a cs n) = map (fun c => same_controller c a) cs.
Proof.
  revert n. induction cs as [|c cs IH]; intros n; [reflexivity|].
  cbn. now rewrite IH.
Qed.

Lemma statusList_type (a : option Vendor) (cs : list Vendor) (n : Net) :
  map statusType (statusList a cs n) = map className cs.
Proof.
  revert n. induction cs as [|c cs IH]; intros n; [reflexivity|].
  cbn. now rewrite IH.
Qed.

(** C2 (as the code has it): when every configured adapter reports
    unhealthy, a timer tick fails with "No healthy controllers available"
    and leaves the active adapter as it was.  With no adapter active,
    every delegated query raises "No active controller available" and the
    status report shows [active = false] for every adapter; an adapter
    that was active is not cleared: queries still go to it and the report
    still shows it active. *)
Theorem tick_with_all_unhealthy (s : System) :
  (forall a, activeController (manager s) = Some a -> In a (controllers (manager s))) ->
  (forall u, In u (controllers (manager s)) -> stays_unhealthy u (net s)) ->
  fst (NetworkControllerManager.checkAndFailover s) = Throw no_healthy_error
  /\ activeController (manager (snd (NetworkControllerManager.checkAndFailover s)))
     = activeController (manager s)
  /\ (forall op,
        fst (delegated op (snd (NetworkControllerManager.checkAndFailover s))) =
          match activeController (manager s) with
          | None => Throw no_active_error
          | Some a =>
              fst (adapterOp op (adapter a)
                     (net (snd (NetworkControllerManager.checkAndFailover s))))
          end)
  /\ (exists l,
        fst (NetworkControllerManager.getAllControllersStatus
               (snd (NetworkControllerManager.checkAndFailover s))) = Ok l
        /\ map active l =
             map (fun c => same_controller c (activeController (manager s)))
                 (controllers (manager s))).
Proof.
  intros Hact Hall.
  destruct (checkAndFailover_all_unhealthy s Hact Hall) as [h Eh].
  rewrite Eh. cbn [fst snd manager net]. repeat split.
  - intros op. rewrite delegated_run. cbn [manager net].
    now destruct (activeController (manager s)).
  - rewrite getAllControllersStatus_run. cbn [fst manager net].
    eexists. split; [reflexivity|]. apply statusList_active.
Qed.

Lemma down_stays_unhealthy (v : Vendor) (n : Net) :
  backend n v = down -> stays_unhealthy v n.
Proof.
  intros Hb h. unfold probe_ok, answers, later. cbn [backend trace mtClient].
  rewrite Hb. destruct v; cbn; try reflexivity. apply andb_false_r.
Qed.

(** C2, on an instance: a fresh manager whose three backends are all
    unreachable. *)
Lemma tick_with_all_unhealthy_witness :
  fst (NetworkControllerManager.checkAndFailover (boot allConfigured (fun _ => down)))
    = Throw no_healthy_error
  /\ (forall op,
        fst (delegated op (snd (NetworkControllerManager.checkAndFailover
                                  (boot allConfigured (fun _ => down)))))
          = Throw no_active_error).
Proof.
  destruct (tick_with_all_unhealthy (boot allConfigured (fun _ => down)))
    as (H1 & _ & H3 & _).
  - intros a Ha. discriminate Ha.
  - intros u _. apply down_stays_unhealthy. reflexivity.
  - exact (conj H1 H3).
Defined.

Lemma odl_for_exhausted (k : nat) (h : list Request) (r : Request) :
  (k <= List.length h)%nat -> odl_for k h r = Throw (Error "ECONNREFUSED").
Proof.
  intros H. unfold odl_for.
  now destruct (Nat.ltb_spec (List.length h) k); [lia|].
Qed.

(** C2 as stated fails: the SDN adapter became active while connecting;
    afterwards every adapter reports unhealthy, and after the next tick
    the SDN adapter is still active, [getDevices] raises the transport
    error of that adapter and the status report shows it active. *)
Lemma tick_keeps_unhealthy_active :
  (forall u, In u (controllers (manager (run [Connect] (boot allConfigured onlyOdlThenNone)))) ->
             stays_unhealthy u (net (run [Connect] (boot allConfigured onlyOdlThenNone))))
  /\ activeController (manager (run [Connect; Tick] (boot allConfigured onlyOdlThenNone)))
     = Some OpenDaylight
  /\ fst (delegated OpGetDevices (run [Connect; Tick] (boot allConfigured onlyOdlThenNone)))
     = Throw (Error "ECONNREFUSED")
  /\ fst (NetworkControllerManager.getAllControllersStatus
            (run [Connect; Tick] (boot allConfigured onlyOdlThenNone)))
     = Ok [mkStatus "OpenDaylightController" false true;
           mkStatus "PfSenseController" false false;
           mkStatus "MikroTikController" false false].
Proof.
  split; [|repeat split; reflexivity].
  intros u _. destruct u.
  - intros h. unfold probe_ok, answers, later, probe.
    cbn [backend trace mtClient]. rewrite received_app.
    change (backend (net (run [Connect] (boot allConfigured onlyOdlThenNone))) OpenDaylight)
      with (odl_for 2).
    rewrite odl_for_exhausted; [reflexivity|].
    rewrite length_app. cbn. lia.
  - apply down_stays_unhealthy. reflexivity.
  - apply down_stays_unhealthy. reflexivity.
Qed.

(** ** Status introspection against the serving adapter *)

Lemma className_inj (a b : Vendor) : className a = className b -> a = b.
Proof. destruct a, b; cbn; intros H; try reflexivity; discriminate H. Qed.

Lemma statusList_flags (v : Vendor) (cs : list Vendor) (n : Net) :
  Forall (fun st => active st = true <-> statusType st = className v)
         (statusList (Some v) cs n).
Proof.
  revert n. induction cs as [|c cs IH]; intros n; cbn [statusList];
    constructor; [|apply IH].
  cbn [active statusType same_controller].
  destruct (vendor_eqb_spec c v) as [->|Hne]; split; intros H;
    try reflexivity; try discriminate.
  exfalso. apply Hne. now apply className_inj.
Qed.

(** After a quiet event the manager has the active adapter it had, and a
    call it delegated was served by that adapter. *)
Lemma quiet_step (e : Event) (s : System) (v : Vendor) :
  quiet e = true ->
  activeController (manager s) = Some v ->
  lastServed (manager s) = Some v ->
  activeController (manager (step e s)) = Some v
  /\ lastServed (manager (step e s)) = Some v
  /\ controllers (manager (step e s)) = controllers (manager s).
Proof.
  intros Hq Ha Hl. destruct e; try discriminate Hq; cbn [step].
  - rewrite delegated_run, Ha. cbn. auto.
  - rewrite getAllControllersStatus_run. cbn. auto.
Qed.

Lemma quiet_run (qs : list Event) (s : System) (v : Vendor) :
  forallb quiet qs = true ->
  activeController (manager s) = Some v ->
  lastServed (manager s) = Some v ->
  activeController (manager (run qs s)) = Some v
  /\ lastServed (manager (run qs s)) = Some v
  /\ controllers (manager (run qs s)) = controllers (manager s).
Proof.
  revert s. induction qs as [|e qs IH]; intros s Hq Ha Hl; [cbn; auto|].
  cbn in Hq. apply andb_prop in Hq. destruct Hq as [He Hqs].
  destruct (quiet_step e s v He Ha Hl) as (Ha' & Hl' & Hc').
  destruct (IH (step e s) Hqs Ha' Hl') as (Ha'' & Hl'' & Hc'').
  cbn [run fold_left]. fold (run qs (step e s)).
  repeat split; congruence.
Qed.

(** C9 (as the code has it): as long as no timer tick, [connect] or
    [disconnect] has run since the most recent delegated call, the
    adapter that served that call is the one status introspection
    reports: [getActiveControllerType] gives its class name and the
    status report flags exactly the entries with that name as active.
    The name reported for an adapter is the one of its class. *)
Theorem status_matches_last_served
  (s : System) (op : Op) (qs : list Event) (v : Vendor) :
  activeController (manager s) = Some v ->
  forallb quiet qs = true ->
  lastServed (manager (run (Call op :: qs) s)) = Some v
  /\ NetworkControllerManager.getActiveControllerType (run (Call op :: qs) s)
     = className v
  /\ exists l,
       fst (NetworkControllerManager.getAllControllersStatus
              (run (Call op :: qs) s)) = Ok l
       /\ map statusType l = map className (controllers (manager s))
       /\ Forall (fun st => active st = true <-> statusType st = className v) l.
Proof.
  intros Ha Hq. cbn [run fold_left]. fold (run qs (step (Call op) s)).
  assert (H1 : activeController (manager (step (Call op) s)) = Some v
               /\ lastServed (manager (step (Call op) s)) = Some v
               /\ controllers (manager (step (Call op) s)) = controllers (manager s)).
  { cbn [step]. rewrite delegated_run, Ha. cbn. auto. }
  destruct H1 as (Ha1 & Hl1 & Hc1).
  destruct (quiet_run qs _ v Hq Ha1 Hl1) as (Ha2 & Hl2 & Hc2).
  split; [exact Hl2|]. split.
  - unfold NetworkControllerManager.getActiveControllerType. now rewrite Ha2.
  - rewrite getAllControllersStatus_run. cbn [fst]. eexists. split; [reflexivity|].
    rewrite Ha2, Hc2, Hc1. split; [apply statusList_type | apply statusList_flags].
Qed.

(** C9, on an instance: a query served by the SDN adapter, then a status
    report and another query. *)
Lemma status_matches_last_served_witness :
  lastServed (manager (run [Call OpGetDevices; Status; Call OpGetStats]
                           (run [Connect] (boot allConfigured (fun _ => odl)))))
    = Some OpenDaylight
  /\ NetworkControllerManager.getActiveControllerType
       (run [Call OpGetDevices; Status; Call OpGetStats]
            (run [Connect] (boot allConfigured (fun _ => odl))))
     = "OpenDaylightController".
Proof.
  destruct (status_matches_last_served
              (run [Connect] (boot allConfigured (fun _ => odl)))
              OpGetDevices [Status; Call OpGetStats] OpenDaylight
              eq_refl eq_refl) as (H1 & H2 & _).
  exact (conj H1 H2).
Defined.

(** C9 as stated fails: [getDevices] is served by the SDN adapter, the
    next tick fails over to the firewall adapter, and status
    introspection then reports the firewall adapter, not the adapter that
    served the most recent delegated call. *)
Lemma status_differs_after_failover :
  fst (delegated OpGetDevices (run [Connect] (boot allConfigured odlThenFirewall)))
    = Ok (Devices [mkDevice (JStr "openflow:1") (JStr "openflow:1") (JStr "OpenFlow")
                            (JStr "192.168.1.1") online JDate])
  /\ lastServed (manager (run [Connect; Call OpGetDevices; Tick]
                              (boot allConfigured odlThenFirewall)))
     = Some OpenDaylight
  /\ NetworkControllerManager.getActiveControllerType
       (run [Connect; Call OpGetDevices; Tick] (boot allConfigured odlThenFirewall))
     = "PfSenseController"
  /\ fst (NetworkControllerManager.getAllControllersStatus
            (run [Connect; Call OpGetDevices; Tick] (boot allConfigured odlThenFirewall)))
     = Ok [mkStatus "OpenDaylightController" false false;
           mkStatus "PfSenseController" true true;
           mkStatus "MikroTikController" false false].
Proof. repeat split; reflexivity. Qed.

(** ** The timer before [connect] *)

Lemma boot_router_not_connected (config : Config) (b : Vendor -> Backend) :
  probe_ok MikroTik (net (boot config b)) = false.
Proof. reflexivity. Qed.

(** C10: the constructor arms the failover timer, so a tick can come
    before [connect] has ever been called; from the fresh state, where no
    adapter is active, that tick runs the full selection, makes the first
    healthy adapter active, and delegated queries are then served by that
    adapter. *)
Theorem tick_before_connect (config : Config) (b : Vendor -> Backend) (v : Vendor) :
  firstHealthy (NetworkControllerManager.initializeControllers config)
               (net (boot config b)) = Some v ->
  timerRunning (manager (boot config b)) = true
  /\ failoverInterval (manager (boot config b))
     = Some (NetworkControllerManager.interval config)
  /\ activeController (manager (boot config b)) = None
  /\ step Tick (boot config b)
     = snd (NetworkControllerManager.selectActiveController (boot config b))
  /\ activeController (manager (run [Tick] (boot config b))) = Some v
  /\ forall op,
       fst (delegated op (run [Tick] (boot config b)))
       = fst (adapterOp op (adapter v) (net (run [Tick] (boot config b)))).
Proof.
  intros Hv. repeat split.
  - cbn [run fold_left step boot manager timerRunning
         NetworkControllerManager.constructor
         NetworkControllerManager.startFailoverCheck].
    rewrite checkAndFailover_run. cbn [boot manager activeController
         NetworkControllerManager.constructor
         NetworkControllerManager.startFailoverCheck].
    rewrite selectActiveController_run.
    cbn [boot manager controllers net NetworkControllerManager.constructor
         NetworkControllerManager.startFailoverCheck].
    rewrite (selected_firstHealthy _ (initializeControllers_NoDup config)).
    cbn [boot net] in Hv. rewrite Hv. reflexivity.
  - intros op. rewrite delegated_run.
    cbn [run fold_left step boot manager timerRunning
         NetworkControllerManager.constructor
         NetworkControllerManager.startFailoverCheck].
    rewrite checkAndFailover_run. cbn [boot manager activeController
         NetworkControllerManager.constructor
         NetworkControllerManager.startFailoverCheck].
    rewrite selectActiveController_run.
    cbn [boot manager controllers net NetworkControllerManager.constructor
         NetworkControllerManager.startFailoverCheck].
    rewrite (selected_firstHealthy _ (initializeControllers_NoDup config)).
    cbn [boot net] in Hv. rewrite Hv. reflexivity.
Qed.

(** C10, on an instance: no [connect]; one tick makes the SDN adapter
    active and [getDevices] returns its device. *)
Lemma tick_before_connect_witness :
  activeController (manager (run [Tick] (boot allConfigured (fun _ => odl))))
    = Some OpenDaylight
  /\ fst (delegated OpGetDevices (run [Tick] (boot allConfigured (fun _ => odl))))
     = Ok (Devices [mkDevice (JStr "openflow:1") (JStr "openflow:1") (JStr "OpenFlow")
                             (JStr "192.168.1.1") online JDate]).
Proof.
  destruct (tick_before_connect allConfigured (fun _ => odl) OpenDaylight eq_refl)
    as (_ & _ & _ & _ & H5 & H6).
  split; [exact H5|]. rewrite (H6 OpGetDevices). reflexivity.
Defined.

(** ** The router adapter's policy translation *)

Lemma executeCommand_accepted (c : string) (p : list (string * JsVal)) (n : Net) :
  mtClient n = true ->
  (forall h c' p', is_ok (backend n MikroTik h (RosWrite c' p')) = true) ->
  exists r, MikroTikController.executeCommand c p n
            = (Ok r, sent MikroTik (RosWrite c p) n).
Proof.
  intros Hc Hb. unfold MikroTikController.executeCommand, send. rewrite Hc.
  specialize (Hb (received MikroTik (trace n)) c p).
  destruct (backend n MikroTik _ _) as [r|e]; [|discriminate Hb].
  exists r. unfold sent. now rewrite Hc.
Qed.

(** C6: applying through the router adapter a policy with ports
    [80, 443] and protocol "tcp", on a router that accepts the commands,
    sends exactly three commands: one queue creation, then the
    packet-marking rule for port 80, then the one for port 443, each rule
    with protocol "tcp". *)
Theorem router_qos_commands (policy : QoSPolicy) (n : Net) :
  ports policy = Some [80; 443] ->
  policyProtocol policy = Some "tcp" ->
  mtClient n = true ->
  (forall h c p, is_ok (backend n MikroTik h (RosWrite c p)) = true) ->
  fst (MikroTikController.applyQoSPolicy policy n) = Ok tt
  /\ exists queue rule80 rule443,
       trace (snd (MikroTikController.applyQoSPolicy policy n)) =
         (trace n ++ [(MikroTik, RosWrite "/queue/simple/add" queue);
                      (MikroTik, RosWrite "/ip/firewall/mangle/add" rule80);
                      (MikroTik, RosWrite "/ip/firewall/mangle/add" rule443)])%list
       /\ lookup "name" queue = JStr (policyName policy)
       /\ lookup "dst-port" rule80 = JStr "80"
       /\ lookup "protocol" rule80 = JStr "tcp"
       /\ lookup "dst-port" rule443 = JStr "443"
       /\ lookup "protocol" rule443 = JStr "tcp".
Proof.
  intros Hports Hproto Hc Hb.
  destruct (executeCommand_accepted "/queue/simple/add"
              (MikroTikController.queueParams policy) n Hc Hb) as [r1 E1].
  set (n1 := sent MikroTik _ n) in E1.
  destruct (executeCommand_accepted "/ip/firewall/mangle/add"
              (MikroTikController.mangleParams policy 80) n1 Hc Hb) as [r2 E2].
  set (n2 := sent MikroTik _ n1) in E2.
  destruct (executeCommand_accepted "/ip/firewall/mangle/add"
              (MikroTikController.mangleParams policy 443) n2 Hc Hb) as [r3 E3].
  set (n3 := sent MikroTik _ n2) in E3.
  assert (E : MikroTikController.applyQoSPolicy policy n = (Ok tt, n3)).
  { unfold MikroTikController.applyQoSPolicy, rethrow, try_catch.
    rewrite Hports. cbn [for_of]. unfold bind, ret.
    rewrite E1. cbv beta iota. rewrite E2. cbv beta iota. rewrite E3.
    reflexivity. }
  rewrite E. cbn [fst snd]. split; [reflexivity|].
  exists (MikroTikController.queueParams policy),
         (MikroTikController.mangleParams policy 80),
         (MikroTikController.mangleParams policy 443).
  split.
  - unfold n3, n2, n1, sent. cbn [trace]. now rewrite <- !app_assoc.
  - unfold MikroTikController.mangleParams. rewrite Hproto. repeat split.
Qed.

(** C6, on an instance: the policy of the adapter's test suite. *)
Lemma router_qos_commands_witness :
  fst (MikroTikController.applyQoSPolicy webPolicy (mkNet (fun _ => up) [] true))
    = Ok tt
  /\ trace (snd (MikroTikController.applyQoSPolicy webPolicy
                   (mkNet (fun _ => up) [] true)))
     = [(MikroTik, RosWrite "/queue/simple/add"
           [("name", JStr "High Priority"); ("target", JStr "ether1");
            ("max-limit", JStr "100M/100M"); ("limit-at", JStr "10M/10M");
            ("priority", JStr "1"); ("comment", JStr "QoS policy qos1")]);
        (MikroTik, RosWrite "/ip/firewall/mangle/add"
           [("chain", JStr "prerouting"); ("dst-port", JStr "80");
            ("protocol", JStr "tcp"); ("action", JStr "mark-connection");
            ("new-connection-mark", JStr "High Priority_conn");
            ("comment", JStr "QoS mark for High Priority")]);
        (MikroTik, RosWrite "/ip/firewall/mangle/add"
           [("chain", JStr "prerouting"); ("dst-port", JStr "443");
            ("protocol", JStr "tcp"); ("action", JStr "mark-connection");
            ("new-connection-mark", JStr "High Priority_conn");
            ("comment", JStr "QoS mark for High Priority")])].
Proof.
  split; [|reflexivity].
  apply (router_qos_commands webPolicy (mkNet (fun _ => up) [] true));
    reflexivity.
Defined.

(** ** The firewall adapter's statistics *)

Lemma field_array_not_nullish (v : JsVal) (k : string) (l : list JsVal) :
  field v k = JArr l -> nullish v = false.
Proof. destruct v; cbn; intros H; try reflexivity; discriminate H. Qed.

Lemma get_run {S : Type} (v : JsVal) (k : string) (s : S) :
  nullish v = false -> get v k s = (Ok (field v k), s).
Proof. intros H. unfold get, lift, prop. now rewrite H. Qed.

Lemma add_counter_missing (v : JsVal) :
  parseInt v = JNaN -> add_counter (JNum 0) v = JNum 0.
Proof. intros H. unfold add_counter. now rewrite H. Qed.

Lemma addInterface_no_counters (ac ts iface : JsVal) (n : Net) :
  no_counters iface ->
  PfSenseController.addInterface
    (mkStats (JNum 0) (JNum 0) (JNum 0) (JNum 0) ac ts) iface n
  = (Ok (mkStats (JNum 0) (JNum 0) (JNum 0) (JNum 0) ac ts), n).
Proof.
  intros (Hn & H1 & H2 & H3 & H4).
  unfold PfSenseController.addInterface, bind.
  rewrite !(get_run iface _ n Hn). unfold ret.
  cbn [bytesIn bytesOut packetsIn packetsOut activeConnections timestamp].
  now rewrite !add_counter_missing.
Qed.

Lemma fold_no_counters (ac ts : JsVal) (ifaces : list JsVal) (n : Net) :
  Forall no_counters ifaces ->
  fold_m PfSenseController.addInterface ifaces
         (mkStats (JNum 0) (JNum 0) (JNum 0) (JNum 0) ac ts) n
  = (Ok (mkStats (JNum 0) (JNum 0) (JNum 0) (JNum 0) ac ts), n).
Proof.
  induction 1 as [|iface ifaces Hi _ IH]; [reflexivity|].
  cbn [fold_m]. unfold bind. now rewrite addInterface_no_counters.
Qed.

(** C7: when the firewall answers both requests of [getStats], every
    entry of the interface list lacks usable counters (each counter is
    absent or does not parse) and the state summary carries no total,
    [getStats] does not raise and returns all five figures as 0. *)
Theorem firewall_stats_default_zero
  (n : Net) (interfaceStats states : JsVal) (ifaces : list JsVal) :
  backend n PfSense (received PfSense (trace n)) (HttpGet "/interface/stats")
    = Ok interfaceStats ->
  backend n PfSense (received PfSense (trace n) ++ [HttpGet "/interface/stats"])%list
          (HttpGet "/diagnostics/states/summary")
    = Ok states ->
  field (field interfaceStats "data") "data" = JArr ifaces ->
  Forall no_counters ifaces ->
  nullish (field states "data") = false ->
  truthy (field (field states "data") "total") = false ->
  fst (PfSenseController.getStats n) = Ok zeroStats.
Proof.
  intros H1 H2 Hlist Hall Hdata Htotal.
  assert (Hi : nullish (field interfaceStats "data") = false)
    by (eapply field_array_not_nullish; eassumption).
  assert (Hi0 : nullish interfaceStats = false).
  { destruct interfaceStats; try reflexivity; discriminate Hi. }
  assert (Hs0 : nullish states = false).
  { destruct states; try reflexivity; discriminate Hdata. }
  unfold PfSenseController.getStats, rethrow, try_catch, promise_all2.
  unfold bind at 1. unfold send. cbn [backend trace mtClient].
  rewrite H1, received_own, H2. cbn [fst snd].
  unfold PfSenseController.aggregate, bind.
  rewrite (get_run states "data" _ Hs0), (get_run _ "total" _ Hdata).
  rewrite (get_run interfaceStats "data" _ Hi0), (get_run _ "data" _ Hi).
  rewrite Hlist. unfold as_array, ret. unfold js_or. rewrite Htotal.
  now rewrite fold_no_counters.
Qed.

(** C7, on an instance: three entries, with absent, null and textual
    counters, and a summary without total. *)
Lemma firewall_stats_default_zero_witness :
  fst (PfSenseController.getStats (mkNet (fun _ => firewallNoCounters) [] false))
    = Ok zeroStats.
Proof.
  apply (firewall_stats_default_zero
           (mkNet (fun _ => firewallNoCounters) [] false)
           (JObj [("data", JObj [("data", JArr [
              JObj [("inbytes", JUndefined); ("outbytes", JUndefined);
                    ("inpkts", JUndefined); ("outpkts", JUndefined)];
              JObj [("inbytes", JStr "n/a"); ("outbytes", JNull)];
              JObj []])])])
           (JObj [("data", JObj [("total", JUndefined)])])
           [JObj [("inbytes", JUndefined); ("outbytes", JUndefined);
                  ("inpkts", JUndefined); ("outpkts", JUndefined)];
            JObj [("inbytes", JStr "n/a"); ("outbytes", JNull)];
            JObj []]);
    try reflexivity.
  repeat constructor.
Defined.

(** The total of the summary is not parsed: a total that is text goes
    through as it is. *)
Example firewall_total_not_parsed :
  fst (PfSenseController.getStats
         (mkNet (fun _ _ r =>
                   match r with
                   | HttpGet "/interface/stats" =>
                       Ok (JObj [("data", JObj [("data", JArr [JObj []])])])
                   | _ => Ok (JObj [("data", JObj [("total", JStr "many")])])
                   end) [] false))
  = Ok (mkStats (JNum 0) (JNum 0) (JNum 0) (JNum 0) (JStr "many") JDate).
Proof. reflexivity. Qed.

(** ** The address of a device *)

Lemma map_m_props {S A B : Type} (f : A -> M S B) (P : A -> B -> Prop) :
  (forall a s b, fst (f a s) = Ok b -> P a b) ->
  forall l s bs, fst (map_m f l s) = Ok bs -> Forall2 P l bs.
Proof.
  intros Hf. induction l as [|a l IH]; intros s bs.
  - cbn. intros [= <-]. constructor.
  - cbn [map_m]. unfold bind at 1.
    destruct (f a s) as [[b|e] s1] eqn:Ea; [|discriminate].
    unfold bind at 1.
    destruct (map_m f l s1) as [[bs'|e] s2] eqn:El; [|discriminate].
    cbn. intros [= <-]. constructor.
    + apply (Hf a s). now rewrite Ea.
    + apply (IH s1). now rewrite El.
Qed.

(** The firewall adapter gives each device the address of its interface
    entry, or "unknown" when the entry has none. *)
Lemma firewall_device_address (iface : JsVal) (n : Net) (d : NetworkDevice) :
  fst (PfSenseController.toDevice iface n) = Ok d ->
  ipAddress d = js_or (field iface "ipaddr") (JStr "unknown").
Proof.
  unfold PfSenseController.toDevice, bind, get, lift, prop.
  destruct (nullish iface); cbn; [discriminate|]. now intros [= <-].
Qed.

(** So does the SDN adapter, from the address of the node. *)
Lemma sdn_device_address (node : JsVal) (n : Net) (d : NetworkDevice) :
  fst (OpenDaylightController.toDevice node n) = Ok d ->
  ipAddress d = js_or (field node "flow-node-inventory:ip-address") (JStr "unknown").
Proof.
  unfold OpenDaylightController.toDevice, bind, get, lift, prop.
  destruct (nullish node); cbn; [discriminate|]. now intros [= <-].
Qed.

Lemma firewall_devices_address (n : Net) (l : list NetworkDevice) :
  fst (PfSenseController.getDevices n) = Ok l ->
  Forall (fun d => ipAddress d = JStr "unknown" \/ truthy (ipAddress d) = true) l.
Proof.
  unfold PfSenseController.getDevices, rethrow, try_catch.
  unfold bind at 1. destruct (send PfSense _ n) as [[response|e] n1]; [|discriminate].
  unfold bind at 1. destruct (get response "data" n1) as [[data|e] n2]; [|discriminate].
  unfold bind at 1. destruct (get data "data" n2) as [[list|e] n3]; [|discriminate].
  unfold bind at 1. destruct (as_array list "map" n3) as [[ifaces|e] n4]; [|discriminate].
  destruct (map_m PfSenseController.toDevice ifaces n4) as [[ds|e] n5] eqn:E;
    [|discriminate].
  cbn. intros [= <-].
  assert (H2 : Forall2 (fun i d => ipAddress d = js_or (field i "ipaddr") (JStr "unknown"))
                       ifaces ds).
  { apply (map_m_props PfSenseController.toDevice _ firewall_device_address ifaces n4).
    now rewrite E. }
  clear E. induction H2 as [|i d ifaces ds Hd _ IH]; constructor; [|exact IH].
  rewrite Hd. unfold js_or. destruct (truthy (field i "ipaddr")) eqn:Et; auto.
Qed.

(** The router adapter calls [getInterfaceIp] without awaiting it: the
    address of every device it returns is a promise, never a string. *)
Lemma router_device_address (iface : JsVal) (n : Net) (d : NetworkDevice) :
  fst (MikroTikController.toDevice iface n) = Ok d ->
  exists v, ipAddress d = JPromise v.
Proof.
  unfold MikroTikController.toDevice, bind, get, lift, prop.
  destruct (nullish iface); cbn; [discriminate|].
  destruct (MikroTikController.getInterfaceIp (field iface "name") n) as [[ip|e] n1];
    cbn; [|discriminate].
  intros [= <-]. now exists ip.
Qed.

Lemma router_devices_address (n : Net) (l : list NetworkDevice) :
  fst (MikroTikController.getDevices n) = Ok l ->
  Forall (fun d => exists v, ipAddress d = JPromise v) l.
Proof.
  unfold MikroTikController.getDevices, rethrow, try_catch.
  unfold bind at 1.
  destruct (MikroTikController.executeCommand _ _ n) as [[interfaces|e] n1];
    [|discriminate].
  unfold bind at 1.
  destruct (as_array interfaces "map" n1) as [[ifaces|e] n2]; [|discriminate].
  destruct (map_m MikroTikController.toDevice ifaces n2) as [[ds|e] n3] eqn:E;
    [|discriminate].
  cbn. intros [= <-].
  assert (H2 : Forall2 (fun _ d => exists v, ipAddress d = JPromise v) ifaces ds).
  { apply (map_m_props MikroTikController.toDevice _ router_device_address ifaces n2).
    now rewrite E. }
  clear E. induction H2; constructor; assumption.
Qed.

(** The promise does resolve to the address, or to "unknown" for an
    interface with no address entry. *)
Example getInterfaceIp_no_entry :
  fst (MikroTikController.getInterfaceIp (JStr "ether1")
         (mkNet (fun _ => routerNoAddress) [] true))
  = Ok (JStr "unknown").
Proof. reflexivity. Qed.

Example getInterfaceIp_entry :
  fst (MikroTikController.getInterfaceIp (JStr "ether1")
         (mkNet (fun _ _ _ => Ok (JArr [JObj [("address", JStr "192.168.1.1/24")]]))
                [] true))
  = Ok (JStr "192.168.1.1").
Proof. reflexivity. Qed.

(** C4: for the connected router adapter and an interface with no
    address entry, the device [getDevices] returns has as [ipAddress] the
    pending result of [getInterfaceIp], which is not the string
    "unknown". *)
Theorem router_device_ip_is_promise :
  fst (MikroTikController.getDevices (mkNet (fun _ => routerNoAddress) [] true))
    = Ok [mkDevice (JStr "*1") (JStr "ether1") (JStr "ether")
                   (JPromise (JStr "unknown")) offline JDate]
  /\ JPromise (JStr "unknown") <> JStr "unknown".
Proof. split; [reflexivity | discriminate]. Qed.

(** ** Reachable states

    In every state the manager reaches from its construction, the adapter
    list is the configured one and the active adapter, if any, is one of
    the list. *)

Lemma promise_all_calls (cs : list Vendor) (s : System) :
  manager (snd (promise_all
                  (map (fun c => NetworkControllerManager.call (disconnect (adapter c))) cs)
                  s))
  = manager s.
Proof.
  revert s. induction cs as [|c cs IH]; intros s; [reflexivity|].
  cbn [map promise_all]. rewrite call_run.
  match goal with
  | |- context [promise_all ?l ?t] =>
      specialize (IH t); destruct (promise_all l t) as [rs s2]
  end.
  cbn [snd manager] in IH.
  destruct (fst (disconnect (adapter c) (net s))), rs; cbn [snd]; exact IH.
Qed.

Lemma disconnect_manager (s : System) :
  controllers (manager (snd (NetworkControllerManager.disconnect s)))
    = controllers (manager s)
  /\ (activeController (manager (snd (NetworkControllerManager.disconnect s))) = None
      \/ activeController (manager (snd (NetworkControllerManager.disconnect s)))
         = activeController (manager s)).
Proof.
  destruct (NetworkControllerManager.disconnect s) as [r s'] eqn:E. cbn [snd].
  unfold NetworkControllerManager.disconnect, NetworkControllerManager.clearTimer,
    NetworkControllerManager.setActive, bind in E.
  destruct (failoverInterval (manager s)).
  - pose proof (promise_all_calls (controllers (manager s))
                  (mkSystem (withTimer false (manager s)) (net s))) as Hm.
    destruct (promise_all _ _) as [[rs|e] s2]; cbn [snd manager] in Hm;
      injection E as <- <-; cbn [manager]; rewrite Hm; cbn; auto.
  - pose proof (promise_all_calls (controllers (manager s)) s) as Hm.
    destruct (promise_all _ _) as [[rs|e] s2]; cbn [snd manager] in Hm;
      injection E as <- <-; cbn [manager]; rewrite Hm; cbn; auto.
Qed.

Ltac close_invariant Hact :=
  cbn [fst snd manager controllers activeController withActive withServed];
  split; [assumption|];
  let a := fresh "a" in
  let Hx := fresh "Hx" in
  intros a Hx;
  first [ discriminate Hx
        | apply Hact; congruence
        | injection Hx as <-; eapply selected_In; eassumption ].

Lemma step_invariant (config : Config) (e : Event) (s : System) :
  controllers (manager s) = NetworkControllerManager.initializeControllers config ->
  (forall a, activeController (manager s) = Some a -> In a (controllers (manager s))) ->
  controllers (manager (step e s)) = NetworkControllerManager.initializeControllers config
  /\ (forall a, activeController (manager (step e s)) = Some a ->
                In a (controllers (manager (step e s)))).
Proof.
  intros Hcs Hact. destruct e; cbn [step].
  - destruct (timerRunning (manager s)); [|auto].
    rewrite checkAndFailover_run.
    destruct (activeController (manager s)) as [a0|] eqn:Ea.
    + cbn zeta. destruct (probe_ok a0 (net s)).
      * close_invariant Hact.
      * cbn [net]. destruct (selected _ _) as [v|] eqn:Es.
        -- close_invariant Hact.
        -- rewrite selectActiveController_run. cbn [manager net].
           destruct (selected _ (afterSelect _ _)) as [v|] eqn:Es'.
           ++ close_invariant Hact.
           ++ close_invariant Hact.
    + rewrite selectActiveController_run.
      destruct (selected _ _) as [v|] eqn:Es.
      * close_invariant Hact.
      * close_invariant Hact.
  - rewrite connect_run. destruct (selected _ _) as [v|] eqn:Es.
    + close_invariant Hact.
    + close_invariant Hact.
  - destruct (disconnect_manager s) as [Hc [Hn|Hsame]]; rewrite Hc;
      (split; [assumption|]); intros a Hx.
    + rewrite Hn in Hx. discriminate Hx.
    + rewrite Hsame in Hx. now apply Hact.
  - rewrite delegated_run.
    destruct (activeController (manager s)) eqn:Ea.
    + close_invariant Hact.
    + close_invariant Hact.
  - rewrite getAllControllersStatus_run. close_invariant Hact.
Qed.

Lemma reachable_invariant (config : Config) (b : Vendor -> Backend) (events : list Event) :
  controllers (manager (run events (boot config b)))
    = NetworkControllerManager.initializeControllers config
  /\ (forall a, activeController (manager (run events (boot config b))) = Some a ->
                In a (controllers (manager (run events (boot config b))))).
Proof.
  assert (H : forall s,
    controllers (manager s) = NetworkControllerManager.initializeControllers config ->
    (forall a, activeController (manager s) = Some a -> In a (controllers (manager s))) ->
    controllers (manager (run events s))
      = NetworkControllerManager.initializeControllers config
    /\ (forall a, activeController (manager (run events s)) = Some a ->
                  In a (controllers (manager (run events s))))).
  { induction events as [|e events IH]; intros s Hc Ha; [cbn; auto|].
    cbn [run fold_left]. fold (run events (step e s)).
    destruct (step_invariant config e s Hc Ha) as [Hc' Ha'].
    now apply IH. }
  apply H; [reflexivity|]. cbn. discriminate.
Qed.

(** * Further properties of the adapters and of the manager *)

(** ** Numbers and their decimal text *)












(** ** Splitting text at a separator *)

Lemma split_on_cons (c : ascii) (s : string) :
  exists h t, split_on c s = h :: t.
Proof.
  induction s as [|a s (h & t & IH)]; cbn [split_on]; [eauto|].
  destruct (Ascii.eqb a c); [eauto|]. rewrite IH. eauto.
Qed.


Lemma split_on_first (c : ascii) (a b : string) :
  has_char c a = false ->
  split_on c (a ++ String c b) = a :: split_on c b.
Proof.
  induction a as [|x a IH]; cbn [has_char split_on append]; intros H.
  - now rewrite Ascii.eqb_refl.
  - apply orb_false_iff in H. destruct H as [Hx Ha]. now rewrite Hx, (IH Ha).
Qed.


(** ** The router adapter *)

Lemma field_string_not_nullish (v : JsVal) (k s : string) :
  field v k = JStr s -> nullish v = false.
Proof. destruct v; cbn; intros H; try reflexivity; discriminate H. Qed.


Lemma bind_run {S A B : Type} (m : M S A) (k : A -> M S B) (s s' : S) (a : A) :
  m s = (Ok a, s') -> bind m k s = k a s'.
Proof. intros H. unfold bind. now rewrite H. Qed.

Lemma bind_fail {S A B : Type} (m : M S A) (k : A -> M S B) (s s' : S) (e : JsError) :
  m s = (Throw e, s') -> bind m k s = (Throw e, s').
Proof. intros H. unfold bind. now rewrite H. Qed.




(** [getInterfaceIp] never raises and always gives a non-empty text: an
    address, or "unknown". *)
Theorem getInterfaceIp_total (interfaceName : JsVal) (n : Net) :
  exists s, fst (MikroTikController.getInterfaceIp interfaceName n) = Ok (JStr s)
            /\ s <> "".
Proof.
  assert (Hu : exists s, Ok (JStr "unknown") = Ok (JStr s) /\ s <> "")
    by (exists "unknown"; split; [reflexivity | discriminate]).
  unfold MikroTikController.getInterfaceIp, try_catch, bind.
  destruct (MikroTikController.executeCommand _ _ n) as [[addresses|e] n1];
    [|exact Hu].
  unfold lift. destruct (index addresses 0) as [a0|e]; [|exact Hu].
  destruct (nullish (opt_prop a0 "address")); [exact Hu|].
  destruct (opt_prop a0 "address") as [| | | | |addr| | | |]; try exact Hu.
  cbn [js_split]. destruct (split_on_cons "/" addr) as (h & t & ->).
  cbn [map index nth]. unfold ret, js_or. cbn [truthy fst].
  destruct (String.eqb_spec h "") as [->|Hne]; cbn [negb]; [exact Hu|].
  exists h. split; [reflexivity | exact Hne].
Qed.

(** On a connected router whose first address entry for the interface
    reads [ip/len], [getInterfaceIp] sends one request and gives [ip]. *)
Theorem getInterfaceIp_strips_prefix
  (interfaceName entry : JsVal) (others : list JsVal) (ip len : string) (n : Net) :
  mtClient n = true ->
  backend n MikroTik (received MikroTik (trace n))
          (RosWrite "/ip/address/print" [("?interface", interfaceName)])
    = Ok (JArr (entry :: others)) ->
  field entry "address" = JStr (ip ++ "/" ++ len) ->
  has_char "/" ip = false ->
  ip <> "" ->
  MikroTikController.getInterfaceIp interfaceName n
  = (Ok (JStr ip),
     sent MikroTik (RosWrite "/ip/address/print" [("?interface", interfaceName)]) n).
Proof.
  intros Hc Hb Haddr Hip Hne.
  pose proof (field_string_not_nullish _ _ _ Haddr) as Hn.
  unfold MikroTikController.getInterfaceIp, try_catch, bind,
    MikroTikController.executeCommand, send.
  rewrite Hc, Hb. unfold lift. cbn [index nth]. unfold opt_prop.
  rewrite Hn, Haddr. cbn [nullish js_split].
  change ("/" ++ len) with (String "/" len).
  rewrite (split_on_first _ _ _ Hip). cbn [map index nth]. unfold ret, js_or, sent.
  cbn [truthy]. destruct (String.eqb_spec ip "") as [->|_]; [congruence|].
  cbn [negb]. now rewrite Hc.
Qed.

Lemma getInterfaceIp_strips_prefix_witness :
  fst (MikroTikController.getInterfaceIp (JStr "ether1")
         (mkNet (fun _ _ _ => Ok (JArr [JObj [("address", JStr "192.168.1.1/24")]]))
                [] true))
  = Ok (JStr "192.168.1.1").
Proof.
  rewrite (getInterfaceIp_strips_prefix (JStr "ether1")
             (JObj [("address", JStr "192.168.1.1/24")]) [] "192.168.1.1" "24"
             (mkNet (fun _ _ _ => Ok (JArr [JObj [("address", JStr "192.168.1.1/24")]]))
                    [] true)
             eq_refl eq_refl eq_refl eq_refl);
    [reflexivity | discriminate].
Defined.

(** Before [connect] the adapter has no client: every query and
    [applyQoSPolicy] raise "Not connected to MikroTik router" and nothing
    is sent; [healthCheck] answers false. *)
Theorem router_not_connected (policy : QoSPolicy) (n : Net) :
  mtClient n = false ->
  MikroTikController.getDevices n = (Throw not_connected_error, n)
  /\ MikroTikController.getFlows n = (Throw not_connected_error, n)
  /\ MikroTikController.getStats n = (Throw not_connected_error, n)
  /\ MikroTikController.applyQoSPolicy policy n = (Throw not_connected_error, n)
  /\ MikroTikController.healthCheck n = (Ok false, n).
Proof.
  intros Hc.
  unfold MikroTikController.getDevices, MikroTikController.getFlows,
    MikroTikController.getStats, MikroTikController.applyQoSPolicy,
    MikroTikController.healthCheck, rethrow, try_catch, bind,
    MikroTikController.executeCommand.
  rewrite Hc. repeat split.
Qed.

Lemma router_not_connected_witness :
  MikroTikController.getDevices (mkNet (fun _ => up) [] false)
  = (Throw not_connected_error, mkNet (fun _ => up) [] false).
Proof.
  exact (proj1 (router_not_connected webPolicy (mkNet (fun _ => up) [] false) eq_refl)).
Defined.

(** ** Connecting *)

(** The [connect] of each adapter sends one request; it succeeds when
    the request is answered and raises "Connection failed", whatever the
    cause, when it is not.  The router adapter has its client assigned
    afterwards in both cases. *)
Theorem adapter_connect_outcome (v : Vendor) (n : Net) :
  fst (connect (adapter v) n)
    = (if answers v (connectRequest v) n then Ok tt
       else Throw (Error "Connection failed"))
  /\ trace (snd (connect (adapter v) n)) = (trace n ++ [(v, connectRequest v)])%list
  /\ backend (snd (connect (adapter v) n)) = backend n
  /\ mtClient (snd (connect (adapter v) n))
     = match v with MikroTik => true | _ => mtClient n end.
Proof.
  destruct v; cbn [adapter connect OpenDaylightController.controller
                   PfSenseController.controller MikroTikController.controller];
    unfold OpenDaylightController.connect, PfSenseController.connect,
      MikroTikController.connect, try_catch, bind, send, ret, throw, answers,
      connectRequest; cbn [backend trace mtClient];
    match goal with
    | |- context [backend n ?w ?h ?r] => destruct (backend n w h r)
    end; cbn; auto.
Qed.

Lemma adapter_connect_run (n : Net) :
  mtClient (snd (MikroTikController.connect n)) = true.
Proof.
  unfold MikroTikController.connect, try_catch, bind, send, ret, throw.
  cbn [backend trace mtClient].
  now destruct (backend n MikroTik _ _).
Qed.

(** After a failed [connect] of the router adapter, commands are sent to
    the router again instead of raising "Not connected": [healthCheck]
    is true exactly when the router answers the probe. *)
Theorem router_client_after_connect (n : Net) :
  fst (MikroTikController.healthCheck (snd (MikroTikController.connect n)))
  = Ok (answers MikroTik (probe MikroTik) (snd (MikroTikController.connect n))).
Proof.
  pose proof (adapter_connect_run n) as Hc.
  pose proof (healthCheck_run MikroTik (snd (MikroTikController.connect n))) as Hh.
  cbn [adapter healthCheck MikroTikController.controller] in Hh.
  rewrite Hh. cbn [fst]. unfold probe_ok. now rewrite Hc.
Qed.

(** ** Policies on the router *)

Lemma accepting_later (n : Net) (h : list (Vendor * Request)) :
  accepting n -> accepting (later n h).
Proof. intros [Hc Hb]. split; [exact Hc | exact Hb]. Qed.

Lemma executeCommand_later (c : string) (p : list (string * JsVal)) (n : Net) :
  accepting n ->
  exists r, MikroTikController.executeCommand c p n
            = (Ok r, later n [(MikroTik, RosWrite c p)]).
Proof.
  intros [Hc Hb]. destruct (executeCommand_accepted c p n Hc Hb) as [r Hr].
  exists r. exact Hr.
Qed.

Lemma mangle_rules_run (policy : QoSPolicy) (l : list Z) (n : Net) :
  accepting n ->
  for_of l (fun port =>
      _ <- MikroTikController.executeCommand "/ip/firewall/mangle/add"
             (MikroTikController.mangleParams policy port) ;;
      ret tt) n
  = (Ok tt,
     later n (map (fun port => (MikroTik, RosWrite "/ip/firewall/mangle/add"
                                  (MikroTikController.mangleParams policy port))) l)).
Proof.
  revert n. induction l as [|port l IH]; intros n Ha.
  - cbn. now rewrite later_nil.
  - cbn [for_of map].
    destruct (executeCommand_later "/ip/firewall/mangle/add"
                (MikroTikController.mangleParams policy port) n Ha) as [r Hr].
    rewrite (bind_run _ _ _ _ tt
               (bind_run _ (fun _ => ret tt) _ _ _ Hr)).
    rewrite (IH _ (accepting_later n _ Ha)), later_later. reflexivity.
Qed.

Lemma router_qos_run (policy : QoSPolicy) (n : Net) :
  accepting n ->
  MikroTikController.applyQoSPolicy policy n
  = (Ok tt, later n (map (pair MikroTik) (qosCommands policy))).
Proof.
  intros Ha. unfold MikroTikController.applyQoSPolicy, rethrow, try_catch.
  destruct (executeCommand_later "/queue/simple/add"
              (MikroTikController.queueParams policy) n Ha) as [r Hr].
  rewrite (bind_run _ _ _ _ _ Hr).
  unfold qosCommands, policyPorts. cbn [map].
  destruct (ports policy) as [[|p ps]|].
  - reflexivity.
  - rewrite (mangle_rules_run policy (p :: ps) _ (accepting_later n _ Ha)).
    rewrite later_later, map_map. reflexivity.
  - reflexivity.
Qed.

(** A policy applied on a router that accepts the commands becomes the
    queue creation followed by one marking rule per listed port, in the
    order of the list, and nothing else: one command when the policy
    lists no port. *)
Theorem router_qos_one_rule_per_port (policy : QoSPolicy) (n : Net) :
  accepting n ->
  fst (MikroTikController.applyQoSPolicy policy n) = Ok tt
  /\ trace (snd (MikroTikController.applyQoSPolicy policy n))
     = (trace n ++ map (pair MikroTik) (qosCommands policy))%list
  /\ List.length (qosCommands policy) = S (List.length (policyPorts policy)).
Proof.
  intros Ha. rewrite (router_qos_run policy n Ha). repeat split.
  unfold qosCommands. cbn [List.length]. now rewrite length_map.
Qed.

Lemma up_accepting : accepting (mkNet (fun _ => up) [] true).
Proof. split; [reflexivity | intros h c p; reflexivity]. Defined.

Lemma router_qos_one_rule_per_port_witness :
  fst (MikroTikController.applyQoSPolicy webPolicy (mkNet (fun _ => up) [] true))
    = Ok tt
  /\ List.length (qosCommands webPolicy) = 3%nat.
Proof.
  destruct (router_qos_one_rule_per_port webPolicy (mkNet (fun _ => up) [] true)
              up_accepting) as (H1 & _ & H3).
  exact (conj H1 H3).
Defined.

(** Applying the same policy twice sends the same commands twice: the
    queue is created again, not updated. *)
Theorem router_qos_applied_twice (policy : QoSPolicy) (n : Net) :
  accepting n ->
  fst (MikroTikController.applyQoSPolicy policy
         (snd (MikroTikController.applyQoSPolicy policy n))) = Ok tt
  /\ trace (snd (MikroTikController.applyQoSPolicy policy
                   (snd (MikroTikController.applyQoSPolicy policy n))))
     = (trace n ++ map (pair MikroTik) (qosCommands policy)
                ++ map (pair MikroTik) (qosCommands policy))%list.
Proof.
  intros Ha. rewrite (router_qos_run policy n Ha). cbn [snd].
  rewrite (router_qos_run policy _ (accepting_later n _ Ha)).
  cbn [fst snd later trace]. split; [reflexivity|]. now rewrite app_assoc.
Qed.

Lemma router_qos_applied_twice_witness :
  fst (MikroTikController.applyQoSPolicy webPolicy
         (snd (MikroTikController.applyQoSPolicy webPolicy
                 (mkNet (fun _ => up) [] true)))) = Ok tt.
Proof.
  exact (proj1 (router_qos_applied_twice webPolicy (mkNet (fun _ => up) [] true)
                  up_accepting)).
Defined.

(** When the router refuses the queue, [applyQoSPolicy] raises the
    router's error as it is and sends no marking rule. *)
Theorem router_qos_queue_refused (policy : QoSPolicy) (n : Net) (e : JsError) :
  mtClient n = true ->
  backend n MikroTik (received MikroTik (trace n))
          (RosWrite "/queue/simple/add" (MikroTikController.queueParams policy))
    = Throw e ->
  MikroTikController.applyQoSPolicy policy n
  = (Throw e,
     sent MikroTik
          (RosWrite "/queue/simple/add" (MikroTikController.queueParams policy)) n).
Proof.
  intros Hc Hb.
  unfold MikroTikController.applyQoSPolicy, rethrow, try_catch, bind,
    MikroTikController.executeCommand, send, throw, sent.
  now rewrite Hc, Hb.
Qed.

Lemma router_qos_queue_refused_witness :
  fst (MikroTikController.applyQoSPolicy webPolicy
         (mkNet (fun _ => refusingQueues) [] true))
  = Throw (Error "failure: already have such name").
Proof.
  now rewrite (router_qos_queue_refused webPolicy
                 (mkNet (fun _ => refusingQueues) [] true)
                 (Error "failure: already have such name") eq_refl eq_refl).
Defined.

(** ** Aggregated statistics *)













(** ** Device lists *)

Lemma map_m_pure {S A B : Type} (f : A -> M S B) (g : A -> B) (l : list A) (s : S) :
  (forall x, In x l -> f x s = (Ok (g x), s)) ->
  map_m f l s = (Ok (map g l), s).
Proof.
  induction l as [|x l IH]; intros H; [reflexivity|].
  cbn [map_m map].
  rewrite (bind_run _ _ _ _ _ (H x (or_introl eq_refl))).
  rewrite (bind_run _ _ _ _ _ (IH (fun y Hy => H y (or_intror Hy)))).
  reflexivity.
Qed.

Lemma sdn_toDevice_run (node : JsVal) (n : Net) :
  nullish node = false ->
  OpenDaylightController.toDevice node n = (Ok (odlDevice node), n).
Proof.
  intros H. unfold OpenDaylightController.toDevice, bind.
  now rewrite !(get_run node _ n H).
Qed.

Lemma sdn_topoDevices_run (topo : JsVal) (n : Net) :
  well_formed_topo topo ->
  OpenDaylightController.topoDevices topo n = (Ok (map odlDevice (topoNodes topo)), n).
Proof.
  intros [Ht Hnode]. unfold OpenDaylightController.topoDevices, topoNodes.
  rewrite (bind_run _ _ _ _ _ (get_run topo "node" n Ht)).
  destruct Hnode as [Hnull | (l & Hl & Hall)].
  - rewrite Hnull. now destruct (field topo "node").
  - rewrite Hl. cbn [nullish as_array].
    rewrite (bind_run _ _ n n l eq_refl).
    apply map_m_pure. intros x Hx. apply sdn_toDevice_run.
    rewrite Forall_forall in Hall. now apply Hall.
Qed.

(** From a topology answer whose entries either have no node list or
    list nodes, [getDevices] of the SDN adapter returns one device per
    node, topology entry after topology entry and node after node: named
    by the node id, with the node address or "unknown", online exactly
    when the node status is "UP". *)
Theorem sdn_devices_of_topology (n : Net) (response : JsVal) (topos : list JsVal) :
  backend n OpenDaylight (received OpenDaylight (trace n))
          (HttpGet OpenDaylightController.topologyUrl)
    = Ok response ->
  field (field (field response "data") "network-topology") "topology" = JArr topos ->
  Forall well_formed_topo topos ->
  fst (OpenDaylightController.getDevices n)
  = Ok (map odlDevice (flat_map topoNodes topos)).
Proof.
  intros Hb Htopo Hall.
  assert (H2 : nullish (field (field response "data") "network-topology") = false)
    by (eapply field_array_not_nullish; eassumption).
  assert (H1 : nullish (field response "data") = false).
  { destruct (field response "data"); try reflexivity; discriminate H2. }
  assert (H0 : nullish response = false).
  { destruct response; try reflexivity; discriminate H1. }
  unfold OpenDaylightController.getDevices, rethrow, try_catch.
  unfold bind at 1. unfold send. rewrite Hb.
  set (n1 := mkNet _ _ _).
  rewrite (bind_run _ _ _ _ _ (get_run response "data" n1 H0)).
  rewrite (bind_run _ _ _ _ _ (get_run _ "network-topology" n1 H1)).
  rewrite (bind_run _ _ _ _ _ (get_run _ "topology" n1 H2)).
  rewrite Htopo. cbn [as_array]. rewrite (bind_run _ _ n1 n1 topos eq_refl).
  assert (E : map_m OpenDaylightController.topoDevices topos n1
              = (Ok (map (fun t => map odlDevice (topoNodes t)) topos), n1)).
  { apply map_m_pure. intros t Ht. apply sdn_topoDevices_run.
    rewrite Forall_forall in Hall. now apply Hall. }
  rewrite (bind_run _ _ _ _ _ E). cbn [ret fst]. unfold ret. cbn [fst]. f_equal.
  clear. induction topos as [|t topos IH]; [reflexivity|].
  cbn [map List.concat flat_map]. now rewrite map_app, IH.
Qed.

Lemma sdn_devices_of_topology_witness :
  fst (OpenDaylightController.getDevices (mkNet (fun _ => sdnTwoSwitches) [] false))
  = Ok [mkDevice (JStr "openflow:1") (JStr "openflow:1") (JStr "OpenFlow")
                 (JStr "192.168.1.1") online JDate;
        mkDevice (JStr "openflow:2") (JStr "openflow:2") (JStr "OpenFlow")
                 (JStr "unknown") offline JDate].
Proof.
  rewrite (sdn_devices_of_topology (mkNet (fun _ => sdnTwoSwitches) [] false)
             twoSwitches _ eq_refl eq_refl); [reflexivity|].
  apply Forall_cons; [|apply Forall_cons; [|apply Forall_nil]].
  - split; [reflexivity|]. right. eexists. split; [reflexivity|].
    repeat apply Forall_cons; try apply Forall_nil; reflexivity.
  - split; [reflexivity|]. left. reflexivity.
Defined.

Lemma rethrow_id {S A : Type} (m : M S A) (s : S) : rethrow m s = m s.
Proof. unfold rethrow, try_catch, throw. now destruct (m s) as [[a|e] s']. Qed.

Lemma firewall_toDevice_run (iface : JsVal) (n : Net) :
  nullish iface = false ->
  PfSenseController.toDevice iface n = (Ok (pfsDevice iface), n).
Proof.
  intros H. unfold PfSenseController.toDevice, bind.
  now rewrite !(get_run iface _ n H).
Qed.

Lemma firewall_toDevice_null (iface : JsVal) (n : Net) :
  nullish iface = true ->
  exists m, PfSenseController.toDevice iface n = (Throw (TypeError m), n).
Proof.
  intros H. unfold PfSenseController.toDevice, bind, get, lift, prop.
  rewrite H. eauto.
Qed.

Lemma firewall_devices_null (ifaces : list JsVal) (n : Net) :
  (exists i, In i ifaces /\ nullish i = true) ->
  exists m, map_m PfSenseController.toDevice ifaces n = (Throw (TypeError m), n).
Proof.
  induction ifaces as [|i ifaces IH]; intros (j & Hin & Hj); [contradiction|].
  cbn [map_m]. destruct (nullish i) eqn:Hi.
  - destruct (firewall_toDevice_null i n Hi) as [m Hm].
    exists m. now rewrite (bind_fail _ _ _ _ _ Hm).
  - rewrite (bind_run _ _ _ _ _ (firewall_toDevice_run i n Hi)).
    destruct Hin as [->|Hin]; [congruence|].
    destruct (IH (ex_intro _ j (conj Hin Hj))) as [m Hm].
    exists m. now rewrite (bind_fail _ _ _ _ _ Hm).
Qed.

Lemma firewall_getDevices_run (n : Net) (response : JsVal) (ifaces : list JsVal) :
  backend n PfSense (received PfSense (trace n)) (HttpGet "/interface") = Ok response ->
  field (field response "data") "data" = JArr ifaces ->
  PfSenseController.getDevices n
  = map_m PfSenseController.toDevice ifaces (sent PfSense (HttpGet "/interface") n).
Proof.
  intros Hb Hlist.
  assert (H1 : nullish (field response "data") = false)
    by (eapply field_array_not_nullish; eassumption).
  assert (H0 : nullish response = false).
  { destruct response; try reflexivity; discriminate H1. }
  unfold PfSenseController.getDevices. rewrite rethrow_id.
  unfold bind at 1. unfold send. rewrite Hb.
  fold (sent PfSense (HttpGet "/interface") n).
  set (n1 := sent _ _ n).
  rewrite (bind_run _ _ _ _ _ (get_run response "data" n1 H0)).
  rewrite (bind_run _ _ _ _ _ (get_run _ "data" n1 H1)).
  rewrite Hlist. cbn [as_array]. now rewrite (bind_run _ _ n1 n1 ifaces eq_refl).
Qed.

(** From an interface list, [getDevices] of the firewall adapter returns
    one device per entry, in order: identified by the interface name,
    named by its description or else by the interface name, with its
    address or "unknown", online exactly when the entry is enabled. *)
Theorem firewall_devices_of_interfaces
  (n : Net) (response : JsVal) (ifaces : list JsVal) :
  backend n PfSense (received PfSense (trace n)) (HttpGet "/interface") = Ok response ->
  field (field response "data") "data" = JArr ifaces ->
  Forall (fun i => nullish i = false) ifaces ->
  fst (PfSenseController.getDevices n) = Ok (map pfsDevice ifaces).
Proof.
  intros Hb Hlist Hall. rewrite (firewall_getDevices_run n response ifaces Hb Hlist).
  rewrite (map_m_pure PfSenseController.toDevice pfsDevice ifaces); [reflexivity|].
  intros x Hx. apply firewall_toDevice_run.
  rewrite Forall_forall in Hall. now apply Hall.
Qed.

Lemma firewall_devices_of_interfaces_witness :
  fst (PfSenseController.getDevices (mkNet (fun _ => firewallInterfaces) [] false))
  = Ok [mkDevice (JStr "em0") (JStr "WAN") (JStr "pfSense Interface")
                 (JStr "192.168.1.1") online JDate;
        mkDevice (JStr "em1") (JStr "em1") (JStr "pfSense Interface")
                 (JStr "unknown") offline JDate].
Proof.
  apply (firewall_devices_of_interfaces
           (mkNet (fun _ => firewallInterfaces) [] false) _ _ eq_refl eq_refl).
  repeat apply Forall_cons; try apply Forall_nil; reflexivity.
Defined.

(** One entry of the interface list that is [null] or [undefined] makes
    the whole [getDevices] of the firewall adapter fail with a TypeError:
    no device is returned for the other entries. *)
Theorem firewall_devices_null_entry
  (n : Net) (response : JsVal) (ifaces : list JsVal) (i : JsVal) :
  backend n PfSense (received PfSense (trace n)) (HttpGet "/interface") = Ok response ->
  field (field response "data") "data" = JArr ifaces ->
  In i ifaces ->
  nullish i = true ->
  exists m, fst (PfSenseController.getDevices n) = Throw (TypeError m).
Proof.
  intros Hb Hlist Hin Hi. rewrite (firewall_getDevices_run n response ifaces Hb Hlist).
  destruct (firewall_devices_null ifaces (sent PfSense (HttpGet "/interface") n)
              (ex_intro _ i (conj Hin Hi))) as [m Hm].
  exists m. now rewrite Hm.
Qed.

Lemma firewall_devices_null_entry_witness :
  exists m,
    fst (PfSenseController.getDevices
           (mkNet (fun _ _ _ => Ok (JObj [("data", JObj [("data", JArr [
                     JObj [("if", JStr "em0")]; JNull])])])) [] false))
    = Throw (TypeError m).
Proof.
  apply (firewall_devices_null_entry
           (mkNet (fun _ _ _ => Ok (JObj [("data", JObj [("data", JArr [
                     JObj [("if", JStr "em0")]; JNull])])])) [] false)
           _ _ JNull eq_refl eq_refl).
  - right. left. reflexivity.
  - reflexivity.
Defined.

(** ** Round trips of the SDN adapter *)

Lemma map_m_state {S A B : Type} (f : A -> M S B) (l : list A) (s : S) :
  (forall x t, snd (f x t) = t) -> snd (map_m f l s) = s.
Proof.
  intros Hf. induction l as [|x l IH]; [reflexivity|].
  cbn [map_m]. unfold bind at 1. pose proof (Hf x s) as Hx.
  destruct (f x s) as [[b|e] s1]; cbn [snd] in Hx; subst s1; [|reflexivity].
  unfold bind. destruct (map_m f l s) as [[bs|e] s2]; cbn [snd] in IH |- *;
    subst s2; reflexivity.
Qed.

Lemma get_state {S : Type} (v : JsVal) (k : string) (s : S) : snd (get v k s) = s.
Proof. reflexivity. Qed.

Lemma sdn_toDevice_state (node : JsVal) (n : Net) :
  snd (OpenDaylightController.toDevice node n) = n.
Proof.
  unfold OpenDaylightController.toDevice, bind, get, lift, prop.
  destruct (nullish node); reflexivity.
Qed.

Lemma sdn_topoDevices_state (topo : JsVal) (n : Net) :
  snd (OpenDaylightController.topoDevices topo n) = n.
Proof.
  unfold OpenDaylightController.topoDevices. unfold bind at 1.
  unfold get, lift, prop. destruct (nullish topo); [reflexivity|].
  destruct (nullish (field topo "node")); [reflexivity|].
  unfold bind, as_array, throw, ret.
  destruct (field topo "node"); try reflexivity.
  pose proof (map_m_state OpenDaylightController.toDevice items n sdn_toDevice_state) as E.
  now destruct (map_m OpenDaylightController.toDevice items n) as [[x|e] n'].
Qed.

Lemma sdn_getDevices_state (n : Net) :
  snd (OpenDaylightController.getDevices n)
  = sent OpenDaylight (HttpGet OpenDaylightController.topologyUrl) n.
Proof.
  unfold OpenDaylightController.getDevices, rethrow, try_catch.
  unfold bind at 1. unfold send. fold (sent OpenDaylight (HttpGet OpenDaylightController.topologyUrl) n).
  destruct (backend n OpenDaylight _ _) as [response|e]; [|reflexivity].
  set (n1 := sent _ _ n).
  unfold bind, get, lift, prop, throw.
  destruct (nullish response); [reflexivity|].
  destruct (nullish (field response "data")); [reflexivity|].
  destruct (nullish (field (field response "data") "network-topology")); [reflexivity|].
  unfold as_array, throw, ret.
  destruct (field (field (field response "data") "network-topology") "topology");
    try reflexivity.
  pose proof (map_m_state OpenDaylightController.topoDevices items n1
                sdn_topoDevices_state) as E.
  now destruct (map_m OpenDaylightController.topoDevices items n1) as [[x|e] n'].
Qed.

Lemma sdn_toFlow_state (flow : JsVal) (n : Net) :
  snd (OpenDaylightController.toFlow flow n) = n.
Proof.
  unfold OpenDaylightController.toFlow, bind, get, lift, prop.
  destruct (nullish flow); [reflexivity|].
  destruct (nullish (field flow "match")); reflexivity.
Qed.

Lemma sdn_tableFlows_state (response : JsVal) (n : Net) :
  snd (OpenDaylightController.tableFlows response n) = n.
Proof.
  unfold OpenDaylightController.tableFlows, bind, get, lift, prop, ret.
  destruct (nullish response); [reflexivity|].
  destruct (nullish (field response "data")); [reflexivity|].
  destruct (nullish (field (field response "data") "flow-node-inventory:table"));
    [reflexivity|].
  now destruct (index _ 0).
Qed.

Lemma sdn_deviceFlows_state (device : NetworkDevice) (n : Net) :
  snd (OpenDaylightController.deviceFlows device n)
  = sent OpenDaylight (flowTableRequest device) n.
Proof.
  unfold OpenDaylightController.deviceFlows. unfold bind at 1. unfold send.
  fold (flowTableRequest device). fold (sent OpenDaylight (flowTableRequest device) n).
  destruct (backend n OpenDaylight _ _) as [response|e]; [|reflexivity].
  set (n1 := sent _ _ n). unfold bind at 1.
  pose proof (sdn_tableFlows_state response n1) as Et.
  destruct (OpenDaylightController.tableFlows response n1) as [[tf|e] n2];
    cbn [snd] in Et; subst n2; [|reflexivity].
  unfold bind, as_array, throw, ret.
  destruct tf; try reflexivity.
  pose proof (map_m_state OpenDaylightController.toFlow items n1 sdn_toFlow_state) as E.
  now destruct (map_m OpenDaylightController.toFlow items n1) as [[x|e] n'].
Qed.

Lemma sdn_flows_trace (devices : list NetworkDevice) (n : Net)
      (r : list (list NetworkFlow)) :
  fst (map_m OpenDaylightController.deviceFlows devices n) = Ok r ->
  snd (map_m OpenDaylightController.deviceFlows devices n)
  = later n (map (fun d => (OpenDaylight, flowTableRequest d)) devices).
Proof.
  revert n r. induction devices as [|d devices IH]; intros n r.
  - intros _. cbn. now rewrite later_nil.
  - cbn [map_m map]. unfold bind at 1 3.
    pose proof (sdn_deviceFlows_state d n) as Ed.
    destruct (OpenDaylightController.deviceFlows d n) as [[fl|e] n1];
      cbn [snd] in Ed; subst n1; [|discriminate].
    unfold bind.
    specialize (IH (sent OpenDaylight (flowTableRequest d) n)).
    destruct (map_m OpenDaylightController.deviceFlows devices _) as [[rs|e] n2];
      [|discriminate].
    intros _. cbn [snd fst] in IH |- *. rewrite (IH rs eq_refl).
    unfold later, sent. cbn [backend trace mtClient]. now rewrite <- app_assoc.
Qed.

(** A successful [getFlows] of the SDN adapter has made one topology
    request and then one flow-table request per device of the topology,
    one after the other in the order of the devices. *)
Theorem sdn_flows_round_trips (n : Net) (flows : list NetworkFlow) :
  fst (OpenDaylightController.getFlows n) = Ok flows ->
  exists devices,
    fst (OpenDaylightController.getDevices n) = Ok devices
    /\ trace (snd (OpenDaylightController.getFlows n))
       = (trace n
            ++ (OpenDaylight, HttpGet OpenDaylightController.topologyUrl)
               :: map (fun d => (OpenDaylight, flowTableRequest d)) devices)%list.
Proof.
  unfold OpenDaylightController.getFlows. rewrite rethrow_id.
  unfold bind at 1 3.
  pose proof (sdn_getDevices_state n) as Eg.
  destruct (OpenDaylightController.getDevices n) as [[devices|e] n1];
    cbn [snd] in Eg; subst n1; [|discriminate].
  unfold bind.
  pose proof (sdn_flows_trace devices
                (sent OpenDaylight (HttpGet OpenDaylightController.topologyUrl) n)) as Et.
  destruct (map_m OpenDaylightController.deviceFlows devices _) as [[rs|e] n2];
    [|discriminate].
  intros _. exists devices. split; [reflexivity|].
  cbn [fst snd] in Et |- *. rewrite (Et rs eq_refl).
  unfold later, sent. cbn [trace]. now rewrite <- app_assoc.
Qed.

Lemma sdn_flows_round_trips_witness :
  exists devices,
    fst (OpenDaylightController.getDevices (mkNet (fun _ => sdnTwoSwitches) [] false))
      = Ok devices
    /\ trace (snd (OpenDaylightController.getFlows
                     (mkNet (fun _ => sdnTwoSwitches) [] false)))
       = ([] ++ (OpenDaylight, HttpGet OpenDaylightController.topologyUrl)
               :: map (fun d => (OpenDaylight, flowTableRequest d)) devices)%list.
Proof.
  exact (sdn_flows_round_trips (mkNet (fun _ => sdnTwoSwitches) [] false) [] eq_refl).
Defined.

Example sdn_flows_two_switches :
  trace (snd (OpenDaylightController.getFlows (mkNet (fun _ => sdnTwoSwitches) [] false)))
  = [(OpenDaylight, HttpGet "/restconf/operational/network-topology:network-topology");
     (OpenDaylight, HttpGet
        ("/restconf/operational/opendaylight-inventory:nodes/node/"
           ++ "openflow:1/flow-node-inventory:table/0"));
     (OpenDaylight, HttpGet
        ("/restconf/operational/opendaylight-inventory:nodes/node/"
           ++ "openflow:2/flow-node-inventory:table/0"))].
Proof. reflexivity. Qed.

(** The SDN adapter does not parse the counters it adds up: a counter
    that arrives as text is appended to the running total, which becomes
    a text. *)
Theorem sdn_stats_text_counter
  (totals : NetworkStats) (device : NetworkDevice) (n : Net)
  (response : JsVal) (a : Z) (s : string) :
  backend n OpenDaylight (received OpenDaylight (trace n))
          (HttpGet ("/restconf/operational/opendaylight-inventory:nodes/node/"
                      ++ toStr (id device)
                      ++ "/flow-node-inventory:table/0/flow-statistics"))
    = Ok response ->
  field (field (field response "data") "flow-node-inventory:flow-statistics")
        "bytes-received" = JStr s ->
  s <> "" ->
  bytesIn totals = JNum a ->
  exists t, fst (OpenDaylightController.addDeviceStats totals device n) = Ok t
            /\ bytesIn t = JStr (string_of_Z a ++ s).
Proof.
  intros Hb Hfield Hs Ha.
  pose proof (field_string_not_nullish _ _ _ Hfield) as H2.
  assert (H1 : nullish (field response "data") = false).
  { destruct (field response "data"); try reflexivity; discriminate H2. }
  assert (H0 : nullish response = false).
  { destruct response; try reflexivity; discriminate H1. }
  unfold OpenDaylightController.addDeviceStats.
  unfold bind at 1. unfold send. rewrite Hb.
  set (n1 := mkNet _ _ _).
  rewrite (bind_run _ _ _ _ _ (get_run response "data" n1 H0)).
  rewrite (bind_run _ _ _ _ _ (get_run _ "flow-node-inventory:flow-statistics" n1 H1)).
  unfold ret. eexists. split; [reflexivity|]. cbn [bytesIn]. rewrite Ha.
  assert (Ht : truthy (field (field response "data")
                         "flow-node-inventory:flow-statistics") = true).
  { destruct (field (field response "data") "flow-node-inventory:flow-statistics");
      try reflexivity; discriminate Hfield. }
  unfold js_or at 2. rewrite Ht, Hfield. unfold js_or. cbn [truthy].
  destruct (String.eqb_spec s "") as [->|_]; [congruence|]. reflexivity.
Qed.

Lemma sdn_stats_text_counter_witness :
  exists t,
    fst (OpenDaylightController.addDeviceStats zeroStats
           (odlDevice (JObj [("node-id", JStr "openflow:1")]))
           (mkNet (fun _ _ _ => Ok (JObj [("data", JObj [
                     ("flow-node-inventory:flow-statistics",
                      JObj [("bytes-received", JStr "100")])])])) [] false))
      = Ok t
    /\ bytesIn t = JStr "0100".
Proof.
  apply (sdn_stats_text_counter zeroStats
           (odlDevice (JObj [("node-id", JStr "openflow:1")]))
           (mkNet (fun _ _ _ => Ok (JObj [("data", JObj [
                     ("flow-node-inventory:flow-statistics",
                      JObj [("bytes-received", JStr "100")])])])) [] false)
           _ 0 "100" eq_refl eq_refl);
    [discriminate | reflexivity].
Defined.

(** ** The active adapter over the life of the manager *)

Lemma filter_none (cs : list Vendor) :
  filter (fun c => same_controller c None) cs = [].
Proof. induction cs as [|c cs IH]; [reflexivity | exact IH]. Qed.

(** In every state the manager reaches, the status report flags at most
    one adapter as active: exactly one when an adapter is active, none
    otherwise. *)
Theorem reachable_at_most_one_active
  (config : Config) (b : Vendor -> Backend) (events : list Event) :
  activeCount (run events (boot config b))
  = match activeController (manager (run events (boot config b))) with
    | Some _ => 1%nat
    | None => 0%nat
    end.
Proof.
  destruct (reachable_invariant config b events) as [Hcs Hact].
  unfold activeCount.
  destruct (activeController (manager (run events (boot config b)))) as [a|].
  - apply filter_same_NoDup; [|now apply Hact].
    rewrite Hcs. apply initializeControllers_NoDup.
  - now rewrite filter_none.
Qed.

(** A tick that finds the active adapter unhealthy makes active the
    first adapter, in configuration order, that is healthy then; the
    adapters before it in the order were found unhealthy. *)
Theorem tick_fails_over (s : System) (a v : Vendor) :
  NoDup (controllers (manager s)) ->
  activeController (manager s) = Some a ->
  probe_ok a (net s) = false ->
  firstHealthy (controllers (manager s)) (afterProbe a (net s)) = Some v ->
  fst (NetworkControllerManager.checkAndFailover s) = Ok tt
  /\ activeController (manager (snd (NetworkControllerManager.checkAndFailover s)))
     = Some v
  /\ exists pre post,
       controllers (manager s) = (pre ++ v :: post)%list
       /\ forall u, In u pre -> probe_ok u (afterProbe a (net s)) = false.
Proof.
  intros Hnd Ha Hbad Hv. rewrite checkAndFailover_run, Ha. cbn zeta. rewrite Hbad.
  cbn [net]. rewrite (selected_firstHealthy _ Hnd), Hv. cbn [fst snd manager].
  repeat split.
  destruct (find_split _ _ _ Hv) as (pre & post & Hsplit & Hpre & _).
  exists pre, post. auto.
Qed.

Lemma tick_fails_over_witness :
  activeController
    (manager (snd (NetworkControllerManager.checkAndFailover
                     (run [Connect; Call OpGetDevices]
                          (boot allConfigured odlThenFirewall)))))
  = Some PfSense.
Proof.
  destruct (tick_fails_over
              (run [Connect; Call OpGetDevices] (boot allConfigured odlThenFirewall))
              OpenDaylight PfSense
              (initializeControllers_NoDup allConfigured) eq_refl eq_refl eq_refl)
    as (_ & H & _).
  exact H.
Defined.

(** A tick that finds the active adapter healthy sends that one probe
    and changes nothing in the manager: the other adapters are not
    contacted. *)
Theorem tick_healthy_active (s : System) (a : Vendor) :
  activeController (manager s) = Some a ->
  probe_ok a (net s) = true ->
  NetworkControllerManager.checkAndFailover s
  = (Ok tt, mkSystem (manager s) (sent a (probe a) (net s))).
Proof.
  intros Ha Hok. rewrite checkAndFailover_run, Ha. cbn zeta. rewrite Hok.
  f_equal. f_equal. unfold afterProbe. destruct a; try reflexivity.
  unfold probe_ok in Hok. apply andb_prop in Hok. destruct Hok as [Hc _].
  now rewrite Hc.
Qed.

Lemma tick_healthy_active_witness :
  NetworkControllerManager.checkAndFailover
    (run [Connect] (boot allConfigured (fun _ => odl)))
  = (Ok tt,
     mkSystem (manager (run [Connect] (boot allConfigured (fun _ => odl))))
              (sent OpenDaylight (probe OpenDaylight)
                    (net (run [Connect] (boot allConfigured (fun _ => odl)))))).
Proof.
  exact (tick_healthy_active (run [Connect] (boot allConfigured (fun _ => odl)))
           OpenDaylight eq_refl eq_refl).
Defined.

(** ** The failover timer and [disconnect] *)

Lemma checkAndFailover_timer (s : System) :
  failoverInterval (manager (snd (NetworkControllerManager.checkAndFailover s)))
    = failoverInterval (manager s)
  /\ timerRunning (manager (snd (NetworkControllerManager.checkAndFailover s)))
     = timerRunning (manager s).
Proof.
  rewrite checkAndFailover_run.
  destruct (activeController (manager s)) as [a|].
  - cbn zeta. destruct (probe_ok a (net s)); [now split|].
    cbn [net]. destruct (selected _ _); [now split|].
    rewrite selectActiveController_run. cbn [manager net].
    destruct (selected _ _); now split.
  - rewrite selectActiveController_run. destruct (selected _ _); now split.
Qed.

Lemma disconnect_timer (s : System) :
  failoverInterval (manager (snd (NetworkControllerManager.disconnect s)))
    = failoverInterval (manager s)
  /\ timerRunning (manager (snd (NetworkControllerManager.disconnect s)))
     = match failoverInterval (manager s) with
       | Some _ => false
       | None => timerRunning (manager s)
       end.
Proof.
  destruct (NetworkControllerManager.disconnect s) as [r s'] eqn:E. cbn [snd].
  unfold NetworkControllerManager.disconnect, NetworkControllerManager.clearTimer,
    NetworkControllerManager.setActive, bind in E.
  destruct (failoverInterval (manager s)) eqn:Ef.
  - pose proof (promise_all_calls (controllers (manager s))
                  (mkSystem (withTimer false (manager s)) (net s))) as Hm.
    destruct (promise_all _ _) as [[rs|e] s2]; cbn [snd manager] in Hm;
      injection E as <- <-; cbn [manager]; rewrite Hm; cbn; auto.
  - pose proof (promise_all_calls (controllers (manager s)) s) as Hm.
    destruct (promise_all _ _) as [[rs|e] s2]; cbn [snd manager] in Hm;
      injection E as <- <-; cbn [manager]; rewrite Hm; cbn; auto.
Qed.

Lemma step_timer (e : Event) (s : System) :
  failoverInterval (manager (step e s)) = failoverInterval (manager s)
  /\ (timerRunning (manager s) = false -> timerRunning (manager (step e s)) = false).
Proof.
  destruct e; cbn [step].
  - destruct (timerRunning (manager s)) eqn:Et; [|now rewrite Et].
    destruct (checkAndFailover_timer s) as [H1 H2]. split; [exact H1 | discriminate].
  - rewrite connect_run. destruct (selected _ _); cbn; auto.
  - destruct (disconnect_timer s) as [H1 H2]. split; [exact H1|].
    intros Hf. rewrite H2. now destruct (failoverInterval (manager s)).
  - rewrite delegated_run. destruct (activeController (manager s)); cbn; auto.
  - rewrite getAllControllersStatus_run. cbn. auto.
Qed.

Lemma run_app (e1 e2 : list Event) (s : System) :
  run (e1 ++ e2) s = run e2 (run e1 s).
Proof. unfold run. apply fold_left_app. Qed.

Lemma run_timer (events : list Event) (s : System) :
  failoverInterval (manager (run events s)) = failoverInterval (manager s)
  /\ (timerRunning (manager s) = false -> timerRunning (manager (run events s)) = false).
Proof.
  revert s. induction events as [|e events IH]; intros s; [now split|].
  cbn [run fold_left]. fold (run events (step e s)).
  destruct (step_timer e s) as [H1 H2]. destruct (IH (step e s)) as [H3 H4].
  split; [congruence | auto].
Qed.

(** Once [disconnect] has been called the failover timer is never
    armed again, whatever is called afterwards, [connect] included: a
    tick changes nothing any more. *)
Theorem timer_stopped_for_good
  (config : Config) (b : Vendor -> Backend) (before after : list Event) :
  timerRunning (manager (run (before ++ Disconnect :: after) (boot config b))) = false
  /\ step Tick (run (before ++ Disconnect :: after) (boot config b))
     = run (before ++ Disconnect :: after) (boot config b).
Proof.
  assert (H : timerRunning
                (manager (run (before ++ Disconnect :: after) (boot config b))) = false).
  { rewrite run_app. cbn [run fold_left].
    fold (run after (step Disconnect (run before (boot config b)))).
    apply run_timer. cbn [step].
    destruct (disconnect_timer (run before (boot config b))) as [_ H2].
    rewrite H2. destruct (run_timer before (boot config b)) as [H1 _].
    rewrite H1. reflexivity. }
  split; [exact H|]. cbn [step]. now rewrite H.
Qed.

Lemma adapter_disconnect_run (c : Vendor) (n : Net) :
  (mtClient n = false \/ forall h, is_ok (backend n MikroTik h RosClose) = true) ->
  exists n', disconnect (adapter c) n = (Ok tt, n')
             /\ backend n' = backend n /\ mtClient n' = mtClient n.
Proof.
  intros H. destruct c; cbn [adapter disconnect OpenDaylightController.controller
                              PfSenseController.controller MikroTikController.controller].
  - exists n. now repeat split.
  - exists n. now repeat split.
  - unfold MikroTikController.disconnect. destruct (mtClient n) eqn:Hc.
    + destruct H as [H|H]; [discriminate|].
      unfold bind, send. specialize (H (received MikroTik (trace n))).
      destruct (backend n MikroTik _ RosClose); [|discriminate].
      eexists. split; [reflexivity|]. cbn. auto.
    + exists n. now repeat split.
Qed.

Lemma disconnect_calls_ok (cs : list Vendor) (s : System) :
  (mtClient (net s) = false
   \/ forall h, is_ok (backend (net s) MikroTik h RosClose) = true) ->
  exists rs n',
    promise_all (map (fun c => NetworkControllerManager.call (disconnect (adapter c))) cs) s
    = (Ok rs, mkSystem (manager s) n').
Proof.
  revert s. induction cs as [|c cs IH]; intros s H.
  - exists [], (net s). now destruct s.
  - cbn [map promise_all]. rewrite call_run.
    destruct (adapter_disconnect_run c (net s) H) as (n1 & E1 & Hb & Hc).
    rewrite E1. cbn [fst snd].
    destruct (IH (mkSystem (manager s) n1)) as (rs & n2 & E2).
    + cbn [net]. rewrite Hb, Hc. exact H.
    + rewrite E2. now exists (tt :: rs), n2.
Qed.

(** When the router session closes (or the router adapter has no
    client), [disconnect] returns and no adapter is active any more:
    every delegated query then raises "No active controller available". *)
Theorem disconnect_clears_active (s : System) :
  (mtClient (net s) = false
   \/ forall h, is_ok (backend (net s) MikroTik h RosClose) = true) ->
  fst (NetworkControllerManager.disconnect s) = Ok tt
  /\ activeController (manager (snd (NetworkControllerManager.disconnect s))) = None
  /\ forall op,
       fst (delegated op (snd (NetworkControllerManager.disconnect s)))
       = Throw no_active_error.
Proof.
  intros H.
  assert (E : exists s', NetworkControllerManager.disconnect s = (Ok tt, s')
                         /\ activeController (manager s') = None).
  { unfold NetworkControllerManager.disconnect, NetworkControllerManager.clearTimer,
      NetworkControllerManager.setActive, bind.
    destruct (failoverInterval (manager s)).
    - destruct (disconnect_calls_ok (controllers (manager s))
                  (mkSystem (withTimer false (manager s)) (net s)) H) as (rs & n' & E).
      rewrite E. eexists. split; reflexivity.
    - destruct (disconnect_calls_ok (controllers (manager s)) s H) as (rs & n' & E).
      rewrite E. eexists. split; reflexivity. }
  destruct E as (s' & E & Ha). rewrite E. cbn [fst snd].
  repeat split; [exact Ha|]. intros op. now rewrite delegated_run, Ha.
Qed.

Lemma disconnect_clears_active_witness :
  fst (NetworkControllerManager.disconnect
         (run [Connect] (boot allConfigured (fun _ => odl)))) = Ok tt
  /\ activeController
       (manager (snd (NetworkControllerManager.disconnect
                        (run [Connect] (boot allConfigured (fun _ => odl)))))) = None.
Proof.
  destruct (disconnect_clears_active (run [Connect] (boot allConfigured (fun _ => odl))))
    as (H1 & H2 & _).
  - right. intros h. reflexivity.
  - exact (conj H1 H2).
Defined.

Lemma disconnect_calls_fail (cs : list Vendor) (s : System) (e : JsError) :
  In MikroTik cs ->
  mtClient (net s) = true ->
  (forall h, backend (net s) MikroTik h RosClose = Throw e) ->
  fst (promise_all
         (map (fun c => NetworkControllerManager.call (disconnect (adapter c))) cs) s)
  = Throw e.
Proof.
  revert s. induction cs as [|c cs IH]; intros s Hin Hc Hb; [contradiction|].
  cbn [map promise_all]. rewrite call_run.
  destruct c.
  - cbn [adapter disconnect OpenDaylightController.controller].
    unfold OpenDaylightController.disconnect, ret. cbn [fst snd].
    destruct Hin as [Hin|Hin]; [discriminate|].
    specialize (IH (mkSystem (manager s) (net s)) Hin Hc Hb).
    destruct (promise_all _ _) as [[rs|e'] s2]; cbn [fst] in IH |- *;
      [discriminate | exact IH].
  - cbn [adapter disconnect PfSenseController.controller].
    unfold PfSenseController.disconnect, ret. cbn [fst snd].
    destruct Hin as [Hin|Hin]; [discriminate|].
    specialize (IH (mkSystem (manager s) (net s)) Hin Hc Hb).
    destruct (promise_all _ _) as [[rs|e'] s2]; cbn [fst] in IH |- *;
      [discriminate | exact IH].
  - cbn [adapter disconnect MikroTikController.controller].
    unfold MikroTikController.disconnect, bind, send. rewrite Hc, Hb. cbn [fst snd].
    now destruct (promise_all _ _) as [rs s2].
Qed.

(** When the closing of the router session fails, [disconnect] raises
    that error after it has stopped the failover timer and before it
    clears the active adapter: the adapter that was active still is. *)
Theorem disconnect_router_close_fails (s : System) (e : JsError) (i : Z) :
  In MikroTik (controllers (manager s)) ->
  mtClient (net s) = true ->
  (forall h, backend (net s) MikroTik h RosClose = Throw e) ->
  failoverInterval (manager s) = Some i ->
  fst (NetworkControllerManager.disconnect s) = Throw e
  /\ activeController (manager (snd (NetworkControllerManager.disconnect s)))
     = activeController (manager s)
  /\ timerRunning (manager (snd (NetworkControllerManager.disconnect s))) = false.
Proof.
  intros Hin Hc Hb Hi.
  destruct (disconnect_timer s) as [_ Ht]. rewrite Hi in Ht.
  split; [|split; [|exact Ht]].
  - unfold NetworkControllerManager.disconnect, NetworkControllerManager.clearTimer, bind.
    rewrite Hi.
    pose proof (disconnect_calls_fail (controllers (manager s))
                  (mkSystem (withTimer false (manager s)) (net s)) e Hin Hc Hb) as E.
    destruct (promise_all _ _) as [[rs|e'] s2]; cbn [fst] in E |- *;
      [discriminate E | now injection E as ->].
  - destruct (NetworkControllerManager.disconnect s) as [r s'] eqn:E. cbn [snd].
    unfold NetworkControllerManager.disconnect, NetworkControllerManager.clearTimer,
      bind in E. rewrite Hi in E.
    pose proof (disconnect_calls_fail (controllers (manager s))
                  (mkSystem (withTimer false (manager s)) (net s)) e Hin Hc Hb) as Ef.
    pose proof (promise_all_calls (controllers (manager s))
                  (mkSystem (withTimer false (manager s)) (net s))) as Hm.
    destruct (promise_all _ _) as [[rs|e'] s2]; cbn [fst snd manager] in Ef, Hm;
      [discriminate|].
    injection E as <- <-. now rewrite Hm.
Qed.

Lemma disconnect_router_close_fails_witness :
  fst (NetworkControllerManager.disconnect
         (run [Connect] (boot allConfigured sdnAndStubbornRouter)))
    = Throw (Error "close failed")
  /\ activeController
       (manager (snd (NetworkControllerManager.disconnect
                        (run [Connect] (boot allConfigured sdnAndStubbornRouter)))))
     = Some OpenDaylight.
Proof.
  destruct (disconnect_router_close_fails
              (run [Connect] (boot allConfigured sdnAndStubbornRouter))
              (Error "close failed") 100) as (H1 & H2 & _).
  - right. right. left. reflexivity.
  - reflexivity.
  - intros h. reflexivity.
  - reflexivity.
  - exact (conj H1 H2).
Defined.

(** ** A manager without adapters *)

(** With no backend configured the manager has no adapter: [connect]
    raises "No healthy controllers available", and in every state it
    reaches the delegated queries raise "No active controller available"
    and the status report is empty. *)
Theorem nothing_configured
  (config : Config) (b : Vendor -> Backend) (events : list Event) (op : Op) :
  openDaylight config = None ->
  pfSense config = None ->
  mikroTik config = None ->
  fst (NetworkControllerManager.connect (boot config b)) = Throw no_healthy_error
  /\ fst (delegated op (run events (boot config b))) = Throw no_active_error
  /\ fst (NetworkControllerManager.getAllControllersStatus (run events (boot config b)))
     = Ok [].
Proof.
  intros Ho Hp Hm.
  assert (Hnil : NetworkControllerManager.initializeControllers config = []).
  { unfold NetworkControllerManager.initializeControllers. now rewrite Ho, Hp, Hm. }
  destruct (reachable_invariant config b events) as [Hcs Hact].
  rewrite Hnil in Hcs.
  assert (Ha : activeController (manager (run events (boot config b))) = None).
  { destruct (activeController (manager (run events (boot config b)))) as [a|] eqn:E;
      [|reflexivity].
    specialize (Hact a eq_refl). rewrite Hcs in Hact. contradiction. }
  repeat split.
  - rewrite connect_run.
    cbn [boot manager controllers NetworkControllerManager.constructor
         NetworkControllerManager.startFailoverCheck].
    now rewrite Hnil.
  - now rewrite delegated_run, Ha.
  - rewrite getAllControllersStatus_run. now rewrite Hcs.
Qed.

Lemma nothing_configured_witness :
  fst (NetworkControllerManager.connect (boot noneConfigured (fun _ => up)))
    = Throw no_healthy_error
  /\ fst (delegated OpGetDevices
            (run [Connect; Tick] (boot noneConfigured (fun _ => up))))
     = Throw no_active_error.
Proof.
  destruct (nothing_configured noneConfigured (fun _ => up) [Connect; Tick]
              OpGetDevices eq_refl eq_refl eq_refl) as (H1 & H2 & _).
  exact (conj H1 H2).
Defined.

(** ** The status report *)

Lemma statusList_healthy (a : option Vendor) (cs : list Vendor) :
  NoDup cs ->
  forall n, map healthy (statusList a cs n) = map (fun c => probe_ok c n) cs.
Proof.
  induction 1 as [|c cs Hnotin Hnd IH]; intros n; [reflexivity|].
  cbn [statusList map healthy]. f_equal. rewrite IH.
  apply map_ext_in. intros u Hu. apply probe_ok_afterProbe_other. congruence.
Qed.

(** [getAllControllersStatus] never raises and leaves the manager as it
    is.  Its report has one entry per adapter, in configuration order,
    with the class name of the adapter and the result of a fresh health
    check, which is the health the adapter had when the report began. *)
Theorem status_report_shape (s : System) :
  NoDup (controllers (manager s)) ->
  exists l,
    fst (NetworkControllerManager.getAllControllersStatus s) = Ok l
    /\ map statusType l = map className (controllers (manager s))
    /\ map healthy l = map (fun c => probe_ok c (net s)) (controllers (manager s))
    /\ manager (snd (NetworkControllerManager.getAllControllersStatus s)) = manager s.
Proof.
  intros Hnd. rewrite getAllControllersStatus_run. cbn [fst snd manager].
  eexists. split; [reflexivity|]. split; [apply statusList_type|].
  split; [now apply statusList_healthy | reflexivity].
Qed.

Lemma status_report_shape_witness :
  exists l,
    fst (NetworkControllerManager.getAllControllersStatus
           (boot allConfigured odlThenFirewall)) = Ok l
    /\ map statusType l
       = ["OpenDaylightController"; "PfSenseController"; "MikroTikController"]
    /\ map healthy l = [true; true; false].
Proof.
  destruct (status_report_shape (boot allConfigured odlThenFirewall)
              (initializeControllers_NoDup allConfigured)) as (l & H1 & H2 & H3 & _).
  exists l. repeat split; assumption.
Defined.

(** ** The loop of [connect] *)

Lemma adapter_connect_sent (c : Vendor) (n : Net) :
  trace (snd (connect (adapter c) n)) = (trace n ++ [(c, connectRequest c)])%list.
Proof.
  destruct c; cbn [adapter connect OpenDaylightController.controller
                   PfSenseController.controller MikroTikController.controller];
    unfold OpenDaylightController.connect, PfSenseController.connect,
      MikroTikController.connect, try_catch, bind, send, ret, throw, connectRequest;
    cbn [backend trace mtClient];
    match goal with
    | |- context [backend n ?w ?h ?r] => destruct (backend n w h r)
    end; reflexivity.
Qed.

Lemma connectLoop_trace (cs : list Vendor) (errors : list JsError) (s : System) :
  trace (net (snd (fold_m NetworkControllerManager.connectOne cs errors s)))
  = (trace (net s) ++ map (fun c => (c, connectRequest c)) cs)%list.
Proof.
  revert errors s. induction cs as [|c cs IH]; intros errors s.
  - cbn. now rewrite app_nil_r.
  - cbn [fold_m map]. unfold bind. rewrite connectOne_run.
    rewrite IH. cbn [net]. rewrite adapter_connect_sent.
    now rewrite <- app_assoc.
Qed.

Lemma afterProbe_trace (v : Vendor) (n : Net) :
  exists probes,
    trace (afterProbe v n) = (trace n ++ probes)%list
    /\ Forall (fun p => snd p = probe (fst p)) probes.
Proof.
  assert (Hs : exists probes,
             trace (sent v (probe v) n) = (trace n ++ probes)%list
             /\ Forall (fun p => snd p = probe (fst p)) probes).
  { exists [(v, probe v)]. split; [reflexivity | now constructor]. }
  assert (Hi : exists probes,
             trace n = (trace n ++ probes)%list
             /\ Forall (fun p : Vendor * Request => snd p = probe (fst p)) probes).
  { exists []. split; [now rewrite app_nil_r | constructor]. }
  unfold afterProbe. destruct v; try exact Hs.
  now destruct (mtClient n).
Qed.

Lemma afterSelect_trace (cs : list Vendor) (n : Net) :
  exists probes,
    trace (afterSelect cs n) = (trace n ++ probes)%list
    /\ Forall (fun p => snd p = probe (fst p)) probes.
Proof.
  revert n. induction cs as [|c cs IH]; intros n.
  - exists []. split; [cbn; now rewrite app_nil_r | constructor].
  - cbn [afterSelect]. destruct (probe_ok c n).
    + apply afterProbe_trace.
    + destruct (afterProbe_trace c n) as [p1 [H1 F1]].
      destruct (IH (afterProbe c n)) as [p2 [H2 F2]].
      exists (p1 ++ p2)%list. split.
      * now rewrite H2, H1, <- app_assoc.
      * now apply Forall_app.
Qed.

(** [connect] of the manager tries every configured adapter, in
    configuration order, whatever the earlier ones met: it sends exactly
    one connection request per adapter before the first health probe,
    and nothing but health probes after them. *)
Theorem connect_tries_every_adapter (s : System) :
  exists probes,
    trace (net (snd (NetworkControllerManager.connect s)))
    = (trace (net s)
         ++ map (fun c => (c, connectRequest c)) (controllers (manager s))
         ++ probes)%list
    /\ Forall (fun p => snd p = probe (fst p)) probes.
Proof.
  destruct (afterSelect_trace (controllers (manager s)) (afterConnects s))
    as [probes [Ht Hp]].
  exists probes. split; [|exact Hp].
  rewrite connect_run.
  assert (Hn : trace (afterSelect (controllers (manager s)) (afterConnects s))
               = (trace (net s)
                    ++ map (fun c => (c, connectRequest c)) (controllers (manager s))
                    ++ probes)%list).
  { rewrite Ht. unfold afterConnects. rewrite connectLoop_trace.
    now rewrite <- app_assoc. }
  now destruct (selected _ (afterConnects s)).
Qed.

(** ** The timer of the monitoring service *)

Lemma monitoring_invariant (requests : list NetworkMonitoringService.Command)
      (s : NetworkMonitoringService.Service) :
  NetworkMonitoringService.intervals s
    = match NetworkMonitoringService.monitoringInterval s with
      | Some h => [h]
      | None => []
      end ->
  NetworkMonitoringService.intervals (NetworkMonitoringService.serve requests s)
    = match NetworkMonitoringService.monitoringInterval
              (NetworkMonitoringService.serve requests s) with
      | Some h => [h]
      | None => []
      end.
Proof.
  revert s. induction requests as [|r requests IH]; intros s Hs; [exact Hs|].
  cbn [NetworkMonitoringService.serve fold_left].
  apply IH. destruct r; cbn [NetworkMonitoringService.handle].
  - unfold NetworkMonitoringService.startMonitoring.
    destruct (NetworkMonitoringService.monitoringInterval s) eqn:E.
    + now rewrite E.
    + cbn. now rewrite Hs.
  - unfold NetworkMonitoringService.stopMonitoring.
    destruct (NetworkMonitoringService.monitoringInterval s) eqn:E.
    + cbn. rewrite Hs. cbn. now rewrite Nat.eqb_refl.
    + now rewrite E.
Qed.

(** Whatever sequence of [startMonitoring] and [stopMonitoring] calls the
    monitoring service receives, it has at most one collection timer
    scheduled: the one it remembers, and none once it has been stopped.
    Starting twice does not schedule a second timer. *)
Theorem monitoring_single_timer (requests : list NetworkMonitoringService.Command) :
  NetworkMonitoringService.intervals
    (NetworkMonitoringService.serve requests
       NetworkMonitoringService.networkMonitoringService)
  = match NetworkMonitoringService.monitoringInterval
            (NetworkMonitoringService.serve requests
               NetworkMonitoringService.networkMonitoringService) with
    | Some h => [h]
    | None => []
    end.
Proof. now apply monitoring_invariant. Qed.

Example monitoring_start_twice :
  NetworkMonitoringService.intervals
    (NetworkMonitoringService.serve
       [NetworkMonitoringService.Start; NetworkMonitoringService.Start]
       NetworkMonitoringService.networkMonitoringService)
  = [0%nat].
Proof. reflexivity. Qed.

(** ** Flows of the firewall adapter *)



(** ** Policies on the SDN controller *)

(** The SDN adapter translates a policy from its id, its target device
    and its priority alone: two policies that agree on these three send
    the same request, whatever their name, bandwidth, protocol and
    ports. *)
Theorem sdn_qos_ignores_limits (p q : QoSPolicy) (n : Net) :
  policyId p = policyId q ->
  targetDevice p = targetDevice q ->
  priority p = priority q ->
  OpenDaylightController.applyQoSPolicy p n = OpenDaylightController.applyQoSPolicy q n.
Proof.
  intros Hi Ht Hp.
  unfold OpenDaylightController.applyQoSPolicy, OpenDaylightController.qosFlow.
  now rewrite Hi, Ht, Hp.
Qed.

Lemma sdn_qos_ignores_limits_witness :
  OpenDaylightController.applyQoSPolicy webPolicy (mkNet (fun _ => up) [] false)
  = OpenDaylightController.applyQoSPolicy
      (mkPolicy "qos1" "Bulk" "ether1" (mkBandwidth 1 2) 1 (Some "udp") None)
      (mkNet (fun _ => up) [] false).
Proof.
  exact (sdn_qos_ignores_limits webPolicy
           (mkPolicy "qos1" "Bulk" "ether1" (mkBandwidth 1 2) 1 (Some "udp") None)
           (mkNet (fun _ => up) [] false) eq_refl eq_refl eq_refl).
Defined.
